(** * peaks_to_bedgraph.py: one bedGraph file per column of a counts table

    A shallow embedding of
    [Downstream_Analysis/5. Chromatin Dynamics with Kmeans Clustering/peaks_to_bedgraph.py].

    The script loads a tab-separated value table (with a header) and a
    headerless annotation table, and for every column of the value table
    other than [peak_id] writes the inner join of that column with the
    annotation as a four-field bedGraph file next to the value table.

    The script is a sequence of pandas calls.  The calls are modelled here
    after the documented behaviour of pandas and of Python's [csv] writer:
    frames are row lists under a list of column labels, [pd.merge] is the
    inner join that keeps the order of the left keys and refuses a key
    column of texts against one of numbers, and [to_csv] writes through a
    [csv.writer] with minimal quoting.  Python objects live in a heap
    addressed by references, so that the one in-place operation of the
    script ([drop(..., inplace=True)]) is a real mutation; the files
    written are kept in a journal. *)

From Stdlib Require Import ZArith String Ascii List Bool Lia DecimalString.
From stdpp Require Import base list strings sorting.

Local Open Scope string_scope.
Local Open Scope list_scope.

(** ** Characters and strings *)

Module Chars.

Definition tab : ascii := ascii_of_nat 9.
Definition lf : ascii := ascii_of_nat 10.
Definition cr : ascii := ascii_of_nat 13.
Definition quote : ascii := ascii_of_nat 34.
Definition slash : ascii := ascii_of_nat 47.

End Chars.

(** [s.split(sep)] of Python for a one-character separator: the pieces of
    [s] between the occurrences of [sep]; never the empty list. *)
Fixpoint split (sep : ascii) (s : string) : list string :=
  match s with
  | EmptyString => [EmptyString]
  | String c s' =>
      if decide (c = sep) then EmptyString :: split sep s'
      else match split sep s' with
           | [] => [String c EmptyString]
           | piece :: pieces => String c piece :: pieces
           end
  end.

(** [sep.join(pieces)]. *)
Fixpoint join (sep : string) (pieces : list string) : string :=
  match pieces with
  | [] => EmptyString
  | [p] => p
  | p :: ps => p +:+ sep +:+ join sep ps
  end.

(** [c in s] for a character. *)
Fixpoint contains (c : ascii) (s : string) : bool :=
  match s with
  | EmptyString => false
  | String c' s' => bool_decide (c' = c) || contains c s'
  end.

(** ** Cells and frames *)

(** A value held in a frame.  A float is carried by the text that pandas
    prints for it: the script never computes with the values.  [NaN] is
    the missing value. *)
Inductive cell : Type :=
| Int (z : Z)
| Float (repr : string)
| Str (s : string)
| NaN.

#[global] Instance cell_eq_dec : EqDecision cell.
Proof. solve_decision. Defined.

#[global] Instance cell_inhabited : Inhabited cell := populate NaN.

Definition row : Type := list cell.

(** A [pandas.DataFrame]: the column labels and the rows under them.  The
    row index is left out: [pd.merge] builds a fresh one and [to_csv] is
    called with [index=False].  The labels of a frame built by [read_csv]
    are distinct (the parser renames a header name that comes twice); a
    label is looked up at its first position. *)
Record DataFrame : Type := mkDataFrame {
  columns : list string;
  rows : list row
}.

(** A row of the annotation table: chromosome, start, end, peak key. *)
Definition annotation_row : Type := (cell * cell * cell * cell)%type.

(** ** Exceptions *)

Inductive exn : Type :=
| IndexError                   (* [arg[i]] out of range *)
| LoadError (path : string)    (* [read_csv]: file missing, unreadable, unparsable *)
| KeyError (label : string)    (* a column label that the frame does not have *)
| ValueError                   (* [pd.merge]: key columns of text and of numbers *)
| CsvError                     (* [csv.Error]: need to escape, but no escapechar set *)
| OSError (path : string)      (* [to_csv]: the target cannot be opened for writing *)
| ReferenceError.              (* dangling reference, never raised by the script *)

#[global] Instance exn_eq_dec : EqDecision exn.
Proof. solve_decision. Defined.

Inductive result (A : Type) : Type :=
| Ok (a : A)
| Error (e : exn).

Arguments Ok {A} a.
Arguments Error {A} e.

(** ** The pandas operations, on frame values *)

Module Pandas.

(** [Index.get_loc]: the position of a label. *)
Fixpoint get_loc (label : string) (labels : list string) : option nat :=
  match labels with
  | [] => None
  | l :: ls => if decide (l = label) then Some 0 else S <$> get_loc label ls
  end.

(** Positions of the requested labels, [KeyError] at the first one that
    is not a column. *)
Fixpoint get_indexer (wanted : list string) (labels : list string) : result (list nat) :=
  match wanted with
  | [] => Ok []
  | l :: ls =>
      match get_loc l labels with
      | None => Error (KeyError l)
      | Some i =>
          match get_indexer ls labels with
          | Ok ixs => Ok (i :: ixs)
          | Error e => Error e
          end
      end
  end.

Definition at_col (i : nat) (r : row) : cell := nth i r NaN.

Definition take (ixs : list nat) (r : row) : row := map (fun i => at_col i r) ixs.

(** [df[[l1, ..., ln]]] and [df.loc[:, [l1, ..., ln]]]: a new frame with
    the named columns in the order asked for. *)
Definition select (wanted : list string) (df : DataFrame) : result DataFrame :=
  match get_indexer wanted (columns df) with
  | Error e => Error e
  | Ok ixs => Ok {| columns := wanted; rows := map (take ixs) (rows df) |}
  end.

(** [df.drop([label], axis=1)]: the frame without that column. *)
Definition drop (label : string) (df : DataFrame) : result DataFrame :=
  match get_loc label (columns df) with
  | None => Error (KeyError label)
  | Some i => Ok {| columns := delete i (columns df);
                    rows := map (delete i) (rows df) |}
  end.

(** Rows with their positions, as [enumerate] gives them. *)
Fixpoint enumerate_from {A : Type} (i : nat) (l : list A) : list (nat * A) :=
  match l with
  | [] => []
  | x :: xs => (i, x) :: enumerate_from (S i) xs
  end.

Definition enumerate {A : Type} (l : list A) : list (nat * A) := enumerate_from 0 l.

(** The right rows whose key equals [k], in the order of the right frame. *)
Definition matching {B : Type} (key_r : B -> cell) (k : cell) (right : list (nat * B))
  : list (nat * B) :=
  filter (fun r => key_r r.2 = k) right.

(** The inner join: for each left row in turn, its pairs with the matching
    right rows.  A key present on one side only yields nothing, and a key
    repeated on either side yields every combination. *)
Definition inner_join {A B : Type} (key_l : A -> cell) (key_r : B -> cell)
    (left : list (nat * A)) (right : list (nat * B)) : list ((nat * A) * (nat * B)) :=
  flat_map (fun l => map (pair l) (matching key_r (key_l l.2) right)) left.

(** Labels of the merged frame: a column other than the key that both
    frames have gets the suffix [_x] on the left and [_y] on the right. *)
Definition suffixed (key : string) (others : list string) (suffix : string) (c : string) : string :=
  if decide (c = key) then c
  else if decide (c ∈ others) then c +:+ suffix
  else c.

Definition merged_row (kr : nat) (p : (nat * row) * (nat * row)) : row :=
  p.1.2 ++ delete kr p.2.2.

(** The dtype [read_csv] gives a column: [object] when it holds a text,
    a number dtype otherwise. *)
Definition is_text (c : cell) : bool :=
  match c with
  | Str _ => true
  | _ => false
  end.

Definition object_dtype (column : list cell) : bool := existsb is_text column.

Definition is_empty (column : list cell) : bool :=
  match column with
  | [] => true
  | _ :: _ => false
  end.

(** The check of the key columns before the join: with rows on both
    sides, a key column of texts against one of numbers is refused
    (You are trying to merge on object and int64 columns). *)
Definition incompatible_keys (lk rk : list cell) : bool :=
  negb (is_empty lk) && negb (is_empty rk) && xorb (object_dtype lk) (object_dtype rk).

(** [pd.merge(left, right, on=[key])], [how='inner'] by default: the left
    columns followed by the right columns other than the key.  Keys are
    equal as cells are; an integer key column against a float one, which
    pandas compares as numbers, is outside the model. *)
Definition merge (left right : DataFrame) (key : string) : result DataFrame :=
  match get_loc key (columns left), get_loc key (columns right) with
  | Some kl, Some kr =>
      if incompatible_keys (map (at_col kl) (rows left)) (map (at_col kr) (rows right))
      then Error ValueError
      else
        Ok {| columns := map (suffixed key (columns right) "_x") (columns left)
                         ++ map (suffixed key (columns left) "_y") (delete kr (columns right));
              rows := map (merged_row kr)
                          (inner_join (at_col kl) (at_col kr)
                             (enumerate (rows left)) (enumerate (rows right))) |}
  | _, _ => Error (KeyError key)
  end.

End Pandas.

(** ** Writing a frame with [csv.writer] *)

Module Csv.

(** Text of a cell in the written file: integers in decimal, missing
    values as the empty string ([na_rep]). *)
Definition render (c : cell) : string :=
  match c with
  | Int z => NilZero.string_of_int (Z.to_int z)
  | Float repr => repr
  | Str s => s
  | NaN => EmptyString
  end.

(** The writer of [to_csv(path, sep=tab, doublequote=False)]: delimiter
    tab, quote character the double quote, [QUOTE_MINIMAL], no escape
    character, records ended by the line feed.

    Scan of one field: [None] when a character would have to be escaped
    (the quote character, as [doublequote] is off), otherwise whether the
    field has to be put between quotes (it holds the delimiter or a
    character of the line terminator). *)
Fixpoint scan_field (s : string) : option bool :=
  match s with
  | EmptyString => Some false
  | String c s' =>
      if decide (c = Chars.quote) then None
      else match scan_field s' with
           | None => None
           | Some q => Some (bool_decide (c = Chars.tab) || bool_decide (c = Chars.lf) || q)
           end
  end.

Definition quoted (s : string) : string :=
  String Chars.quote (s +:+ String Chars.quote EmptyString).

(** A lone empty field is quoted so that the record is not an empty line. *)
Definition write_field (n_fields : nat) (s : string) : option string :=
  match scan_field s with
  | None => None
  | Some q =>
      if q || (Nat.eqb n_fields 1 && bool_decide (s = EmptyString))
      then Some (quoted s) else Some s
  end.

Fixpoint write_fields (n_fields : nat) (fields : list string) : option (list string) :=
  match fields with
  | [] => Some []
  | f :: fs =>
      match write_field n_fields f, write_fields n_fields fs with
      | Some f', Some fs' => Some (f' :: fs')
      | _, _ => None
      end
  end.

(** [writer.writerow]: the record, without its terminator. *)
Definition writerow (r : row) : option string :=
  match write_fields (length r) (map render r) with
  | Some fs => Some (join (String Chars.tab EmptyString) fs)
  | None => None
  end.

(** [writer.writerows]: the records written, and whether a row stopped
    the writer with [csv.Error]; the rows before it are in the file. *)
Fixpoint writerows (rs : list row) : list string * bool :=
  match rs with
  | [] => ([], true)
  | r :: rs' =>
      match writerow r with
      | None => ([], false)
      | Some rec => let '(recs, ok) := writerows rs' in (rec :: recs, ok)
      end
  end.

End Csv.

(** ** The interpreter state and the monad of the script *)

(** A reference to a frame object: its address in the heap. *)
Definition ref : Type := nat.

(** The heap of frame objects and the journal of the files written by
    [to_csv], the most recent first, each with its records. *)
Record state : Type := mkState {
  heap : list DataFrame;
  written : list (string * list string)
}.

Definition initial : state := {| heap := []; written := [] |}.

Inductive outcome (A : Type) : Type :=
| Return (a : A) (s : state)
| Raise (e : exn) (s : state).

Arguments Return {A} a s.
Arguments Raise {A} e s.

Definition final {A : Type} (o : outcome A) : state :=
  match o with
  | Return _ s => s
  | Raise _ s => s
  end.

Definition raised {A : Type} (o : outcome A) : option exn :=
  match o with
  | Return _ _ => None
  | Raise e _ => Some e
  end.

Definition M (A : Type) : Type := state -> outcome A.

Definition ret {A : Type} (a : A) : M A := fun s => Return a s.

Definition raise {A : Type} (e : exn) : M A := fun s => Raise e s.

Definition bind {A B : Type} (m : M A) (k : A -> M B) : M B :=
  fun s => match m s with
           | Return a s' => k a s'
           | Raise e s' => Raise e s'
           end.

Notation "x <- m ;; k" := (bind m (fun x => k))
  (at level 62, m at next level, right associativity).
Notation "m ;;; k" := (bind m (fun _ => k))
  (at level 62, right associativity).

Definition lift {A : Type} (r : result A) : M A :=
  match r with
  | Ok a => ret a
  | Error e => raise e
  end.

(** A new object, at the first free address. *)
Definition alloc (df : DataFrame) : M ref :=
  fun s => Return (length (heap s)) {| heap := heap s ++ [df]; written := written s |}.

Definition deref (r : ref) : M DataFrame :=
  fun s => match heap s !! r with
           | Some df => Return df s
           | None => Raise ReferenceError s
           end.

(** Overwrite the object at [r]: what an in-place method does. *)
Definition assign (r : ref) (df : DataFrame) : M unit :=
  fun s => Return tt {| heap := <[r := df]> (heap s); written := written s |}.

(** [for x in l: body(x)] *)
Fixpoint for_each {A : Type} (l : list A) (body : A -> M unit) : M unit :=
  match l with
  | [] => ret tt
  | x :: xs => body x ;;; for_each xs body
  end.

(** ** The world outside the script *)

(** What the files hold and where files can be created.
    [read_header path] is the frame [pd.read_csv(path, sep=tab)] builds
    (labels from the first line), [read_names path] is the rows under the
    four labels given with [names=...]; [None] when [read_csv] raises.
    [can_open path] tells whether [path] can be opened for writing. *)
Record world : Type := mkWorld {
  read_header : string -> option DataFrame;
  read_names : string -> option (list annotation_row);
  can_open : string -> bool
}.

Definition bed_names : list string := ["Chromosome"; "Start"; "End"; "peak_id"].

Definition bed_row (t : annotation_row) : row :=
  let '(chromosome, start, stop, peak) := t in [chromosome; start; stop; peak].

Definition bed_frame (ts : list annotation_row) : DataFrame :=
  {| columns := bed_names; rows := map bed_row ts |}.

(** ** The pandas calls of the script, on references *)

(** [pd.read_csv(path, sep=tab)] *)
Definition read_csv (w : world) (path : string) : M ref :=
  match read_header w path with
  | Some df => alloc df
  | None => raise (LoadError path)
  end.

(** [pd.read_csv(path, sep=tab, names=['Chromosome','Start','End','peak_id'])] *)
Definition read_csv_names (w : world) (path : string) : M ref :=
  match read_names w path with
  | Some ts => alloc (bed_frame ts)
  | None => raise (LoadError path)
  end.

(** [df[[l1, ..., ln]]]: a new object. *)
Definition getitem (r : ref) (wanted : list string) : M ref :=
  df <- deref r ;; sel <- lift (Pandas.select wanted df) ;; alloc sel.

(** [pd.merge(left, right, on=[key])]: a new object. *)
Definition pd_merge (left right : ref) (key : string) : M ref :=
  l <- deref left ;; r <- deref right ;;
  m <- lift (Pandas.merge l r key) ;; alloc m.

(** [df.drop([label], axis=1, inplace=True)]: the object itself changes. *)
Definition drop_inplace (r : ref) (label : string) : M unit :=
  df <- deref r ;; d <- lift (Pandas.drop label df) ;; assign r d.

(** [df.loc[:, [l1, ..., ln]]]: a new object. *)
Definition loc (r : ref) (wanted : list string) : M ref := getitem r wanted.

(** [df.columns] *)
Definition get_columns (r : ref) : M (list string) :=
  df <- deref r ;; ret (columns df).

(** [df.to_csv(path, sep=tab, header=False, index=False, doublequote=False)]:
    the file is opened, then the rows are written one record each; when
    the writer raises, the records written so far stay in the file. *)
Definition to_csv (w : world) (r : ref) (path : string) : M unit :=
  fun s =>
    match heap s !! r with
    | None => Raise ReferenceError s
    | Some df =>
        if can_open w path then
          let '(recs, ok) := Csv.writerows (rows df) in
          let s' := {| heap := heap s; written := (path, recs) :: written s |} in
          if ok then Return tt s' else Raise CsvError s'
        else Raise (OSError path) s
    end.

(** [arg[i]] *)
Definition argv_get (arg : list string) (i : nat) : M string :=
  match arg !! i with
  | Some a => ret a
  | None => raise IndexError
  end.

(** ** The script *)

(** The loop that builds the directory part of the output path:
    [path = ''] and then [path += element] for each element of
    [map(lambda x: x+"/", l[:-1])]. *)
Definition path_prefix (l : list string) : string :=
  fold_left (fun path element => path +:+ element)
            (map (fun x => x +:+ "/") (removelast l)) EmptyString.

Definition column_to_bedgraph (w : world) (arg : list string)
    (column_name : string) (tsv bed : ref) : M unit :=
  if decide (column_name <> "peak_id") then
    (* Generate a column-specific Temporary DataFrame *)
    t_df <- getitem tsv ["peak_id"; column_name] ;;
    (* Add Peak coordinates information *)
    t_df <- pd_merge t_df bed "peak_id" ;;
    (* Adjust to Bedgraph format (Chr, Start, End, Value) *)
    drop_inplace t_df "peak_id" ;;;
    t_df <- loc t_df ["Chromosome"; "Start"; "End"; column_name] ;;
    (* Prepare Output *)
    arg1 <- argv_get arg 1 ;;
    let l := split Chars.slash arg1 in
    let path := path_prefix l in
    let path := path +:+ column_name +:+ ".bedgraph" in
    to_csv w t_df path
  else ret tt.

(** Module-level execution: load both files, then one call per column. *)
Definition main (w : world) (arg : list string) : M unit :=
  tsv <- argv_get arg 1 ;;
  tsv <- read_csv w tsv ;;
  bed <- argv_get arg 2 ;;
  bed <- read_csv_names w bed ;;
  cols <- get_columns tsv ;;
  for_each cols (fun column => column_to_bedgraph w arg column tsv bed).

(** The run of the program from a fresh interpreter. *)
Definition run (w : world) (arg : list string) : outcome unit := main w arg initial.

(** ** What one call computes, as a function of the two tables *)

(** The frame handed to [to_csv]: the four pandas steps in a row. *)
Definition bedgraph_frame (column_name : string) (T B : DataFrame) : result DataFrame :=
  match Pandas.select ["peak_id"; column_name] T with
  | Error e => Error e
  | Ok sel =>
      match Pandas.merge sel B "peak_id" with
      | Error e => Error e
      | Ok m =>
          match Pandas.drop "peak_id" m with
          | Error e => Error e
          | Ok d => Pandas.select ["Chromosome"; "Start"; "End"; column_name] d
          end
      end
  end.

Definition output_path (arg1 column_name : string) : string :=
  path_prefix (split Chars.slash arg1) +:+ column_name +:+ ".bedgraph".

(** The directory component of a path, in the words of the
    specification: the text of the path up to and including its last
    separator, empty when the path has none.  A file name joined to it
    is the name appended. *)
Fixpoint dir_component (p : string) : string :=
  match p with
  | EmptyString => EmptyString
  | String c rest =>
      if contains Chars.slash p then String c (dir_component rest) else EmptyString
  end.

(** The files one call writes (none or one) and the exception it ends
    with, if any. *)
Definition emit (w : world) (arg : list string) (column_name : string)
    (T B : DataFrame) : list (string * list string) * option exn :=
  if decide (column_name = "peak_id") then ([], None)
  else
    match bedgraph_frame column_name T B with
    | Error e => ([], Some e)
    | Ok F =>
        match arg !! 1 with
        | None => ([], Some IndexError)
        | Some arg1 =>
            let path := output_path arg1 column_name in
            if can_open w path then
              let '(recs, ok) := Csv.writerows (rows F) in
              ([(path, recs)], if ok then None else Some CsvError)
            else ([], Some (OSError path))
        end
    end.

(** The files a loop over [cols] writes, in the order written, and the
    exception that stops it, if any. *)
Fixpoint emit_all (w : world) (arg : list string) (cols : list string)
    (T B : DataFrame) : list (string * list string) * option exn :=
  match cols with
  | [] => ([], None)
  | c :: cs =>
      match emit w arg c T B with
      | (files, Some e) => (files, Some e)
      | (files, None) =>
          let '(more, e) := emit_all w arg cs T B in (files ++ more, e)
      end
  end.

(** ** The vocabulary of the statements *)

(** The cell of a row of [df] under a label. *)
Definition cell_at (df : DataFrame) (label : string) (r : row) : cell :=
  match Pandas.get_loc label (columns df) with
  | Some i => Pandas.at_col i r
  | None => NaN
  end.

Definition peak_of (b : annotation_row) : cell := b.2.

(** The bedGraph row of a value and an annotation row:
    chromosome, start, end, value. *)
Definition bedgraph_row (value : cell) (b : annotation_row) : row :=
  let '(chromosome, start, stop, _) := b in [chromosome; start; stop; value].

(** The pairs of the join of a value table with the annotation rows,
    each row with its position in its table. *)
Definition join_pairs (T : DataFrame) (ts : list annotation_row)
  : list ((nat * row) * (nat * annotation_row)) :=
  Pandas.inner_join (cell_at T "peak_id") peak_of
    (Pandas.enumerate (rows T)) (Pandas.enumerate ts).




(** The key columns of the two tables. *)
Definition value_keys (T : DataFrame) : list cell := map (cell_at T "peak_id") (rows T).

Definition annotation_keys (ts : list annotation_row) : list cell := map peak_of ts.

(** The peak keys of the two tables are of one kind: texts on both
    sides, or integers on both sides. *)
Definition keys_of_one_kind (T : DataFrame) (ts : list annotation_row) : Prop :=
  (Forall (fun k => exists s, k = Str s) (value_keys T) /\
   Forall (fun k => exists s, k = Str s) (annotation_keys ts))
  \/ (Forall (fun k => exists z, k = Int z) (value_keys T) /\
      Forall (fun k => exists z, k = Int z) (annotation_keys ts)).


(** A text without the characters the writer treats specially: the
    delimiter, the line terminator and the quote character; and without
    the carriage return, which later versions of the writer quote as
    well. *)
Definition plain (s : string) : Prop :=
  contains Chars.tab s = false /\ contains Chars.lf s = false /\
  contains Chars.cr s = false /\ contains Chars.quote s = false.

(** The labels of the annotation other than the key: a value column
    with one of these names clashes with it in the merge. *)
Definition clashing : list string := ["Chromosome"; "Start"; "End"].

(** The rows of the frame written for a column: the bedGraph rows of
    the join pairs. *)
Definition bedgraph_rows (c : string) (T : DataFrame) (ts : list annotation_row) : list row :=
  map (fun p => bedgraph_row (cell_at T c p.1.2) p.2.2) (join_pairs T ts).

(** The state with another heap. *)
Definition with_heap (s : state) (h : list DataFrame) : state :=
  {| heap := h; written := written s |}.

(** ** Scenarios *)

(** The scenario of the specification. *)

Module Scenario.

Definition value_table : DataFrame :=
  {| columns := ["peak_id"; "stageA"; "stageB"];
     rows := [[Str "p1"; Int 10; Int 20]; [Str "p2"; Int 30; Int 40]] |}.

Definition annotation_rows : list annotation_row :=
  [(Str "chr1", Int 100, Int 200, Str "p1"); (Str "chr1", Int 300, Int 400, Str "p2")].

Definition w : world :=
  {| read_header := fun p => if decide (p = "data/peaks.tsv") then Some value_table else None;
     read_names := fun p => if decide (p = "data/peaks.bed") then Some annotation_rows else None;
     can_open := fun _ => true |}.

Definition arg : list string := ["peaks_to_bedgraph.py"; "data/peaks.tsv"; "data/peaks.bed"].

(** The state after the two loads. *)
Definition loaded : state :=
  {| heap := [value_table; bed_frame annotation_rows]; written := [] |}.

End Scenario.

(** The scenario with a value row [p3] that has no annotation. *)
Module Unmatched.

Definition value_table : DataFrame :=
  {| columns := ["peak_id"; "stageA"; "stageB"];
     rows := [[Str "p1"; Int 10; Int 20]; [Str "p3"; Int 50; Int 60];
              [Str "p2"; Int 30; Int 40]] |}.

Definition w : world :=
  {| read_header := fun p => if decide (p = "data/peaks.tsv") then Some value_table else None;
     read_names :=
       fun p => if decide (p = "data/peaks.bed") then Some Scenario.annotation_rows else None;
     can_open := fun _ => true |}.

End Unmatched.

(** A value table whose peak keys are the numbers 1 and 2, read as
    integers, with the annotation of the scenario, whose keys are texts. *)
Module Numbered.

Definition value_table : DataFrame :=
  {| columns := ["peak_id"; "stageA"];
     rows := [[Int 1; Int 10]; [Int 2; Int 30]] |}.

Definition w : world :=
  {| read_header := fun p => if decide (p = "data/peaks.tsv") then Some value_table else None;
     read_names :=
       fun p => if decide (p = "data/peaks.bed") then Some Scenario.annotation_rows else None;
     can_open := fun _ => true |}.

End Numbered.

(** Keys that come more than once: [p1] twice in the value table, not
    in a row, and twice in the annotation. *)
Module Duplicates.

Definition value_table : DataFrame :=
  {| columns := ["peak_id"; "stage"];
     rows := [[Str "p1"; Int 1]; [Str "p2"; Int 2]; [Str "p1"; Int 3]] |}.

Definition annotation_rows : list annotation_row :=
  [(Str "chr1", Int 100, Int 200, Str "p1"); (Str "chr2", Int 5, Int 6, Str "p2");
   (Str "chr1", Int 700, Int 800, Str "p1")].

Definition loaded : state :=
  {| heap := [value_table; bed_frame annotation_rows]; written := [] |}.

End Duplicates.

(** A value that holds a tab: the field [a<TAB>b], as [read_csv] gives
    it for the quoted text of an input file. *)
Module Tabbed.

Definition value : string := "a" +:+ String Chars.tab "b".

Definition value_table : DataFrame :=
  {| columns := ["peak_id"; "stage"];
     rows := [[Str "p1"; Str value]] |}.

Definition annotation_rows : list annotation_row :=
  [(Str "chr1", Int 100, Int 200, Str "p1")].

Definition w : world :=
  {| read_header := fun p => if decide (p = "data/peaks.tsv") then Some value_table else None;
     read_names := fun p => if decide (p = "data/peaks.bed") then Some annotation_rows else None;
     can_open := fun _ => true |}.

Definition arg : list string := ["peaks_to_bedgraph.py"; "data/peaks.tsv"; "data/peaks.bed"].

End Tabbed.

(** A value table with a column named like a column of the annotation. *)
Module Clash.

Definition value_table : DataFrame :=
  {| columns := ["peak_id"; "Start"];
     rows := [[Str "p1"; Int 10]] |}.

Definition annotation_rows : list annotation_row :=
  [(Str "chr1", Int 100, Int 200, Str "p1")].

Definition w : world :=
  {| read_header := fun p => if decide (p = "data/peaks.tsv") then Some value_table else None;
     read_names := fun p => if decide (p = "data/peaks.bed") then Some annotation_rows else None;
     can_open := fun _ => true |}.

Definition arg : list string := ["peaks_to_bedgraph.py"; "data/peaks.tsv"; "data/peaks.bed"].

End Clash.

(** A value that holds a double quote, in the first of two value
    columns. *)
Module Quoted.

Definition value : string := "x" +:+ String Chars.quote EmptyString.

Definition value_table : DataFrame :=
  {| columns := ["peak_id"; "stageA"; "stageB"];
     rows := [[Str "p1"; Str value; Int 20]] |}.

Definition annotation_rows : list annotation_row :=
  [(Str "chr1", Int 100, Int 200, Str "p1")].

Definition w : world :=
  {| read_header := fun p => if decide (p = "data/peaks.tsv") then Some value_table else None;
     read_names := fun p => if decide (p = "data/peaks.bed") then Some annotation_rows else None;
     can_open := fun _ => true |}.

Definition arg : list string := ["peaks_to_bedgraph.py"; "data/peaks.tsv"; "data/peaks.bed"].

End Quoted.

(** A value table whose key column has another name. *)
Module NoKey.

Definition value_table : DataFrame :=
  {| columns := ["peak"; "stageA"];
     rows := [[Str "p1"; Int 10]] |}.

Definition w : world :=
  {| read_header := fun p => if decide (p = "data/peaks.tsv") then Some value_table else None;
     read_names :=
       fun p => if decide (p = "data/peaks.bed") then Some Scenario.annotation_rows else None;
     can_open := fun _ => true |}.

End NoKey.

(** The scenario where no file can be created. *)
Module ReadOnly.

Definition w : world :=
  {| read_header := read_header Scenario.w;
     read_names := read_names Scenario.w;
     can_open := fun _ => false |}.

End ReadOnly.

(** The states after the two loads of the scenarios above. *)
Module Loaded.

Definition clash : state :=
  {| heap := [Clash.value_table; bed_frame Clash.annotation_rows]; written := [] |}.


Definition quoted : state :=
  {| heap := [Quoted.value_table; bed_frame Quoted.annotation_rows]; written := [] |}.

End Loaded.

(** A row none of whose texts holds the quote character. *)
Definition quote_free (r : row) : Prop :=
  Forall (fun x => contains Chars.quote (Csv.render x) = false) r.

(** The annotation without the rows whose peak key is the key of no
    value row. *)
Definition drop_unused (T : DataFrame) (ts : list annotation_row) : list annotation_row :=
  filter (fun b => peak_of b ∈ value_keys T) ts.

(** The scenario with one more annotation row, for a peak that has no
    value. *)
Module Unused.

Definition annotation_rows : list annotation_row :=
  [(Str "chr1", Int 100, Int 200, Str "p1"); (Str "chr9", Int 1, Int 2, Str "p7");
   (Str "chr1", Int 300, Int 400, Str "p2")].

Definition w : world :=
  {| read_header := read_header Scenario.w;
     read_names := fun p => if decide (p = "data/peaks.bed") then Some annotation_rows else None;
     can_open := fun _ => true |}.

End Unused.

(** The scenario with a third value column, and its state after the
    loads. *)
Module Wider.

Definition value_table : DataFrame :=
  {| columns := ["stageC"; "peak_id"; "stageA"];
     rows := [[Str "x"; Str "p1"; Int 10]; [Str "y"; Str "p2"; Int 30]] |}.

Definition loaded : state :=
  {| heap := [bed_frame Scenario.annotation_rows; value_table]; written := [] |}.

End Wider.

(** A value with a double quote in the second row of the one value
    column, and the state after the loads. *)
Module LaterQuote.

Definition value_table : DataFrame :=
  {| columns := ["peak_id"; "stageA"];
     rows := [[Str "p1"; Str "10"]; [Str "p2"; Str Quoted.value]] |}.

Definition loaded : state :=
  {| heap := [value_table; bed_frame Scenario.annotation_rows]; written := [] |}.

End LaterQuote.

(** A value table with its header and no row, and the state after the
    loads. *)
Module NoRows.

Definition value_table : DataFrame :=
  {| columns := ["peak_id"; "stageA"]; rows := [] |}.

Definition loaded : state :=
  {| heap := [value_table; bed_frame Scenario.annotation_rows]; written := [] |}.

End NoRows.


(** A decidable statement about concrete data, by evaluation. *)
Ltac decided := apply (bool_decide_unpack _); vm_compute; exact I.

(** Every key of a concrete list is a text, or every key an integer. *)
Ltac texts := repeat constructor; eexists; reflexivity.

(** Nothing is in an empty journal. *)
Ltac no_file :=
  let H := fresh "H" in
  intros H; by apply elem_of_nil in H.

(** ** The calls against the heap *)

Section Heap.

Context (w : world) (arg : list string).

Lemma lookup_fresh (h : list DataFrame) (df : DataFrame) (more : list DataFrame) :
  (h ++ df :: more) !! length h = Some df.
Proof. by apply list_lookup_middle. Qed.

Lemma insert_fresh (h : list DataFrame) (df x : DataFrame) (more : list DataFrame) :
  <[length h := x]> (h ++ df :: more) = h ++ x :: more.
Proof. rewrite insert_app_r_alt by lia. by rewrite Nat.sub_diag. Qed.

Lemma lookup_old (h more : list DataFrame) (r : ref) (df : DataFrame) :
  h !! r = Some df -> (h ++ more) !! r = Some df.
Proof. apply lookup_app_l_Some. Qed.

Lemma bind_return {A B : Type} (m : M A) (k : A -> M B) (s s' : state) (a : A) :
  m s = Return a s' -> bind m k s = k a s'.
Proof. unfold bind. by intros ->. Qed.

Lemma bind_raise {A B : Type} (m : M A) (k : A -> M B) (s s' : state) (e : exn) :
  m s = Raise e s' -> bind m k s = Raise e s'.
Proof. unfold bind. by intros ->. Qed.

Lemma getitem_run (r : ref) (wanted : list string) (s : state) (df : DataFrame) :
  heap s !! r = Some df ->
  getitem r wanted s =
    match Pandas.select wanted df with
    | Ok sel => Return (length (heap s)) (with_heap s (heap s ++ [sel]))
    | Error e => Raise e s
    end.
Proof.
  intros H. unfold getitem, bind, deref. rewrite H.
  by destruct (Pandas.select wanted df).
Qed.

Lemma pd_merge_run (l r : ref) (key : string) (s : state) (L R : DataFrame) :
  heap s !! l = Some L -> heap s !! r = Some R ->
  pd_merge l r key s =
    match Pandas.merge L R key with
    | Ok m => Return (length (heap s)) (with_heap s (heap s ++ [m]))
    | Error e => Raise e s
    end.
Proof.
  intros Hl Hr. unfold pd_merge, bind, deref. rewrite Hl, Hr.
  by destruct (Pandas.merge L R key).
Qed.

Lemma drop_inplace_run (r : ref) (label : string) (s : state) (df : DataFrame) :
  heap s !! r = Some df ->
  drop_inplace r label s =
    match Pandas.drop label df with
    | Ok d => Return tt (with_heap s (<[r := d]> (heap s)))
    | Error e => Raise e s
    end.
Proof.
  intros H. unfold drop_inplace, bind, deref. rewrite H.
  by destruct (Pandas.drop label df).
Qed.

Lemma to_csv_run (r : ref) (path : string) (s : state) (df : DataFrame) :
  heap s !! r = Some df ->
  to_csv w r path s =
    if can_open w path then
      let s' := {| heap := heap s; written := (path, (Csv.writerows (rows df)).1) :: written s |} in
      if (Csv.writerows (rows df)).2 then Return tt s' else Raise CsvError s'
    else Raise (OSError path) s.
Proof.
  intros H. unfold to_csv. rewrite H.
  destruct (can_open w path); [|done]. by destruct (Csv.writerows (rows df)).
Qed.

(** One call reads the two tables, allocates its temporaries behind
    them, and leaves in the journal what [emit] says. *)
Lemma column_to_bedgraph_emit (c : string) (tsv bed : ref) (s : state) (T B : DataFrame) :
  heap s !! tsv = Some T ->
  heap s !! bed = Some B ->
  let o := column_to_bedgraph w arg c tsv bed s in
  (exists extra, heap (final o) = heap s ++ extra) /\
  written (final o) = rev (emit w arg c T B).1 ++ written s /\
  raised o = (emit w arg c T B).2.
Proof.
  intros HT HB. unfold column_to_bedgraph, emit, bedgraph_frame.
  destruct (decide (c <> "peak_id")) as [Hc|Hc].
  2:{ destruct (decide (c = "peak_id")) as [_|Hn]; [|tauto].
      simpl. split; [exists []; by rewrite app_nil_r | done]. }
  destruct (decide (c = "peak_id")) as [He|_]; [tauto|].
  pose proof (getitem_run tsv ["peak_id"; c] s T HT) as Hget.
  destruct (Pandas.select ["peak_id"; c] T) as [sel|e].
  2:{ rewrite (bind_raise _ _ _ _ _ Hget). simpl.
      split; [exists []; by rewrite app_nil_r | done]. }
  rewrite (bind_return _ _ _ _ _ Hget). clear Hget.
  set (s1 := with_heap s (heap s ++ [sel])).
  assert (H1 : heap s1 !! length (heap s) = Some sel) by apply lookup_fresh.
  assert (H1b : heap s1 !! bed = Some B) by by apply lookup_old.
  pose proof (pd_merge_run _ _ "peak_id" s1 sel B H1 H1b) as Hmerge.
  destruct (Pandas.merge sel B "peak_id") as [m|e].
  2:{ rewrite (bind_raise _ _ _ _ _ Hmerge). simpl.
      split; [by exists [sel] | done]. }
  rewrite (bind_return _ _ _ _ _ Hmerge). clear Hmerge.
  set (s2 := with_heap s1 (heap s1 ++ [m])).
  assert (H2 : heap s2 !! length (heap s1) = Some m) by apply lookup_fresh.
  pose proof (drop_inplace_run _ "peak_id" s2 m H2) as Hdrop.
  destruct (Pandas.drop "peak_id" m) as [d|e].
  2:{ rewrite (bind_raise _ _ _ _ _ Hdrop). simpl.
      split; [exists [sel; m]; by rewrite <- app_assoc | done]. }
  rewrite (bind_return _ _ _ _ _ Hdrop). clear Hdrop.
  set (s3 := with_heap s2 (<[length (heap s1) := d]> (heap s2))).
  assert (E3 : heap s3 = heap s ++ [sel; d]).
  { simpl. rewrite insert_fresh. by rewrite <- app_assoc. }
  assert (H3 : heap s3 !! length (heap s1) = Some d).
  { simpl. rewrite insert_fresh. apply lookup_fresh. }
  pose proof (getitem_run _ ["Chromosome"; "Start"; "End"; c] s3 d H3) as Hloc.
  unfold loc.
  destruct (Pandas.select ["Chromosome"; "Start"; "End"; c] d) as [F|e].
  2:{ rewrite (bind_raise _ _ _ _ _ Hloc). cbn [final raised]. rewrite E3.
      split; [by exists [sel; d] | done]. }
  rewrite (bind_return _ _ _ _ _ Hloc). clear Hloc.
  set (s4 := with_heap s3 (heap s3 ++ [F])).
  assert (E4 : heap s4 = heap s ++ [sel; d; F]).
  { unfold s4. cbn [heap with_heap]. rewrite E3. by rewrite <- app_assoc. }
  assert (H4 : heap s4 !! length (heap s3) = Some F) by apply lookup_fresh.
  unfold argv_get. destruct (arg !! 1) as [arg1|].
  2:{ unfold bind, raise. cbn [final raised]. rewrite E4.
      split; [by exists [sel; d; F] | done]. }
  rewrite (bind_return (ret arg1) _ s4 s4 arg1 eq_refl).
  rewrite (to_csv_run _ _ s4 F H4). fold (output_path arg1 c).
  destruct (can_open w (output_path arg1 c)).
  2:{ cbn [final raised]. rewrite E4. split; [by exists [sel; d; F] | done]. }
  destruct (Csv.writerows (rows F)) as [recs ok].
  destruct ok; cbn [final raised heap fst snd]; rewrite E4;
    (split; [by exists [sel; d; F] | done]).
Qed.

End Heap.

(** ** The join *)

Section Join.

Import Pandas.

Context {A B : Type}.

Lemma enumerate_from_map {C D : Type} (f : C -> D) (i : nat) (l : list C) :
  enumerate_from i (map f l) = map (fun p => (p.1, f p.2)) (enumerate_from i l).
Proof.
  revert i. induction l as [|x l IH]; intros i; simpl; [done|]. by rewrite IH.
Qed.

Lemma matching_map {B' : Type} (g : B -> B') (key_r : B -> cell) (key_r' : B' -> cell)
    (k : cell) (right : list (nat * B)) :
  (forall b, key_r' (g b) = key_r b) ->
  matching key_r' k (map (fun p => (p.1, g p.2)) right)
  = map (fun p => (p.1, g p.2)) (matching key_r k right).
Proof.
  intros Hk. unfold matching. induction right as [|[j b] right IH]; [done|].
  simpl. rewrite !filter_cons. simpl. rewrite Hk.
  destruct (decide (key_r b = k)); simpl; by rewrite IH.
Qed.

(** Mapping both tables before the join is mapping the pairs after it,
    when the maps keep the keys. *)
Lemma inner_join_map {A' B' : Type} (f : A -> A') (g : B -> B')
    (key_l : A -> cell) (key_r : B -> cell) (key_l' : A' -> cell) (key_r' : B' -> cell)
    (left : list (nat * A)) (right : list (nat * B)) :
  (forall a, key_l' (f a) = key_l a) ->
  (forall b, key_r' (g b) = key_r b) ->
  inner_join key_l' key_r' (map (fun p => (p.1, f p.2)) left)
                           (map (fun p => (p.1, g p.2)) right)
  = map (fun p => ((p.1.1, f p.1.2), (p.2.1, g p.2.2)))
        (inner_join key_l key_r left right).
Proof.
  intros Hl Hr. unfold inner_join.
  induction left as [|[i a] left IH]; [done|].
  simpl. rewrite map_app, IH. f_equal.
  rewrite Hl. rewrite (matching_map g key_r key_r') by done.
  rewrite !map_map. done.
Qed.

End Join.

(** ** The frame written for a column *)

Section Frame.

Import Pandas.

Lemma select_two (c : string) (T : DataFrame) (kp kc : nat) :
  get_loc "peak_id" (columns T) = Some kp ->
  get_loc c (columns T) = Some kc ->
  select ["peak_id"; c] T
  = Ok {| columns := ["peak_id"; c]; rows := map (take [kp; kc]) (rows T) |}.
Proof. intros Hp Hc. unfold select. simpl. by rewrite Hp, Hc. Qed.

Lemma suffixed_other (key : string) (others : list string) (suffix c : string) :
  c ∉ others -> suffixed key others suffix c = c.
Proof.
  intros H. unfold suffixed. destruct (decide (c = key)); [done|].
  by destruct (decide (c ∈ others)).
Qed.

Lemma joined_rows (T : DataFrame) (ts : list annotation_row) (kp kc : nat) :
  get_loc "peak_id" (columns T) = Some kp ->
  inner_join (at_col 0) (at_col 3)
    (enumerate (map (take [kp; kc]) (rows T))) (enumerate (map bed_row ts))
  = map (fun p => ((p.1.1, take [kp; kc] p.1.2), (p.2.1, bed_row p.2.2)))
        (join_pairs T ts).
Proof.
  intros Hp. unfold enumerate at 1 2.
  rewrite !enumerate_from_map. unfold join_pairs.
  apply inner_join_map.
  - intros r. unfold cell_at. by rewrite Hp.
  - by intros [[[chromosome start] stop] peak].
Qed.

Lemma selected_keys (T : DataFrame) (kp kc : nat) :
  get_loc "peak_id" (columns T) = Some kp ->
  map (at_col 0) (map (take [kp; kc]) (rows T)) = value_keys T.
Proof.
  intros Hp. unfold value_keys. rewrite map_map. apply map_ext.
  intros r. unfold cell_at. by rewrite Hp.
Qed.

Lemma bed_keys (ts : list annotation_row) :
  map (at_col 3) (map bed_row ts) = annotation_keys ts.
Proof.
  unfold annotation_keys. rewrite map_map. apply map_ext.
  by intros [[[chromosome start] stop] peak].
Qed.

(** The merge of the two selected columns with the annotation. *)
Lemma merge_selected (c : string) (T : DataFrame) (ts : list annotation_row) (kp kc : nat) :
  get_loc "peak_id" (columns T) = Some kp ->
  merge {| columns := ["peak_id"; c]; rows := map (take [kp; kc]) (rows T) |}
        (bed_frame ts) "peak_id"
  = if incompatible_keys (value_keys T) (annotation_keys ts) then Error ValueError
    else Ok {| columns := ["peak_id"; suffixed "peak_id" bed_names "_x" c;
                           suffixed "peak_id" ["peak_id"; c] "_y" "Chromosome";
                           suffixed "peak_id" ["peak_id"; c] "_y" "Start";
                           suffixed "peak_id" ["peak_id"; c] "_y" "End"];
               rows := map (merged_row 3)
                         (map (fun p => ((p.1.1, take [kp; kc] p.1.2), (p.2.1, bed_row p.2.2)))
                            (join_pairs T ts)) |}.
Proof.
  intros Hp. unfold merge. cbn [columns rows bed_frame].
  change (get_loc "peak_id" ["peak_id"; c]) with (Some 0).
  change (get_loc "peak_id" bed_names) with (Some 3).
  cbv iota. rewrite (selected_keys T kp kc Hp), bed_keys.
  destruct (incompatible_keys (value_keys T) (annotation_keys ts)); [done|].
  by rewrite (joined_rows T ts kp kc Hp).
Qed.

(** The frame of a column that is in the table and is none of the
    annotation labels: the bedGraph rows of the join pairs. *)
Lemma bedgraph_frame_ok (c : string) (T : DataFrame) (ts : list annotation_row) (kp kc : nat) :
  get_loc "peak_id" (columns T) = Some kp ->
  get_loc c (columns T) = Some kc ->
  incompatible_keys (value_keys T) (annotation_keys ts) = false ->
  c <> "peak_id" -> c ∉ clashing ->
  bedgraph_frame c T (bed_frame ts)
  = Ok {| columns := ["Chromosome"; "Start"; "End"; c];
          rows := bedgraph_rows c T ts |}.
Proof.
  intros Hp Hc Hkeys Hkey Hclash.
  assert (c <> "Chromosome" /\ c <> "Start" /\ c <> "End") as (H1 & H2 & H3).
  { repeat split; intros ->; apply Hclash; unfold clashing; repeat constructor. }
  unfold bedgraph_frame. rewrite (select_two c T kp kc Hp Hc).
  rewrite (merge_selected c T ts kp kc Hp), Hkeys.
  rewrite !suffixed_other
    by (unfold bed_names; rewrite ?not_elem_of_cons; repeat split;
        try done; apply not_elem_of_nil).
  unfold drop, select. simpl. rewrite !decide_False by done. rewrite decide_True by done.
  simpl. do 2 f_equal.
  unfold bedgraph_rows. rewrite !map_map.
  apply map_ext. intros [[i t] [j [[[chromosome start] stop] peak]]].
  unfold cell_at. rewrite Hc. reflexivity.
Qed.

Lemma bedgraph_frame_no_key (c : string) (T B : DataFrame) :
  get_loc "peak_id" (columns T) = None ->
  bedgraph_frame c T B = Error (KeyError "peak_id").
Proof. intros Hp. unfold bedgraph_frame, select. simpl. by rewrite Hp. Qed.

Lemma bedgraph_frame_no_column (c : string) (T B : DataFrame) (kp : nat) :
  get_loc "peak_id" (columns T) = Some kp ->
  get_loc c (columns T) = None ->
  bedgraph_frame c T B = Error (KeyError c).
Proof. intros Hp Hc. unfold bedgraph_frame, select. simpl. by rewrite Hp, Hc. Qed.

(** Key columns of texts on one side and of numbers on the other stop
    the merge. *)
Lemma bedgraph_frame_incompatible (c : string) (T : DataFrame) (ts : list annotation_row)
    (kp kc : nat) :
  get_loc "peak_id" (columns T) = Some kp ->
  get_loc c (columns T) = Some kc ->
  incompatible_keys (value_keys T) (annotation_keys ts) = true ->
  bedgraph_frame c T (bed_frame ts) = Error ValueError.
Proof.
  intros Hp Hc Hkeys. unfold bedgraph_frame.
  rewrite (select_two c T kp kc Hp Hc).
  by rewrite (merge_selected c T ts kp kc Hp), Hkeys.
Qed.

(** A column named like one of the annotation columns is renamed by the
    merge on both sides, and the selection that follows misses it. *)
Lemma bedgraph_frame_clash (c : string) (T : DataFrame) (ts : list annotation_row) (kp kc : nat) :
  get_loc "peak_id" (columns T) = Some kp ->
  get_loc c (columns T) = Some kc ->
  incompatible_keys (value_keys T) (annotation_keys ts) = false ->
  c ∈ clashing ->
  bedgraph_frame c T (bed_frame ts) = Error (KeyError c).
Proof.
  intros Hp Hc Hkeys Hclash. unfold bedgraph_frame.
  rewrite (select_two c T kp kc Hp Hc).
  rewrite (merge_selected c T ts kp kc Hp), Hkeys.
  unfold clashing in Hclash. rewrite !elem_of_cons in Hclash.
  destruct Hclash as [->|[->|[->|Hnil]]]; [reflexivity..|].
  by apply elem_of_nil in Hnil.
Qed.

End Frame.

(** ** The loop and the run *)

Section Loop.

Context (w : world) (arg : list string).

Lemma for_each_emit_all (tsv bed : ref) (T B : DataFrame) (cols : list string) (s : state) :
  heap s !! tsv = Some T ->
  heap s !! bed = Some B ->
  let o := for_each cols (fun column => column_to_bedgraph w arg column tsv bed) s in
  (exists extra, heap (final o) = heap s ++ extra) /\
  written (final o) = rev (emit_all w arg cols T B).1 ++ written s /\
  raised o = (emit_all w arg cols T B).2.
Proof.
  revert s. induction cols as [|c cols IH]; intros s HT HB.
  { simpl. split; [exists []; by rewrite app_nil_r | done]. }
  destruct (column_to_bedgraph_emit w arg c tsv bed s T B HT HB) as ((extra & Hh) & Hw & Hr).
  cbn [for_each emit_all]. unfold bind.
  destruct (column_to_bedgraph w arg c tsv bed s) as [[] s1|e s1];
    destruct (emit w arg c T B) as [files [e'|]]; simpl in Hh, Hw, Hr; try done.
  - assert (HT1 : heap s1 !! tsv = Some T) by (rewrite Hh; by apply lookup_old).
    assert (HB1 : heap s1 !! bed = Some B) by (rewrite Hh; by apply lookup_old).
    destruct (IH s1 HT1 HB1) as ((extra' & Hh') & Hw' & Hr').
    destruct (emit_all w arg cols T B) as [more e']. simpl in *.
    split; [|split].
    + exists (extra ++ extra'). by rewrite Hh', Hh, app_assoc.
    + by rewrite Hw', Hw, rev_app_distr, app_assoc.
    + done.
  - simpl. split; [by exists extra | done].
Qed.

(** The run: both loads, then the loop over the columns of the value
    table, with the two tables at the first two addresses. *)
Lemma run_emit_all (arg1 arg2 : string) (T : DataFrame) (ts : list annotation_row) :
  arg !! 1 = Some arg1 -> arg !! 2 = Some arg2 ->
  read_header w arg1 = Some T -> read_names w arg2 = Some ts ->
  written (final (run w arg)) = rev (emit_all w arg (columns T) T (bed_frame ts)).1 /\
  raised (run w arg) = (emit_all w arg (columns T) T (bed_frame ts)).2 /\
  heap (final (run w arg)) !! 0 = Some T /\
  heap (final (run w arg)) !! 1 = Some (bed_frame ts).
Proof.
  intros H1 H2 HT Hts.
  set (s := {| heap := [T; bed_frame ts]; written := [] |}).
  assert (HT0 : heap s !! 0 = Some T) by done.
  assert (HB0 : heap s !! 1 = Some (bed_frame ts)) by done.
  destruct (for_each_emit_all 0 1 T (bed_frame ts) (columns T) s HT0 HB0)
    as ((extra & Hh) & Hw & Hr).
  assert (Hrun : run w arg
                 = for_each (columns T) (fun column => column_to_bedgraph w arg column 0 1) s).
  { unfold run, main.
    erewrite bind_return by (unfold argv_get; rewrite H1; reflexivity).
    erewrite bind_return by (unfold read_csv; rewrite HT; reflexivity).
    erewrite bind_return by (unfold argv_get; rewrite H2; reflexivity).
    erewrite bind_return by (unfold read_csv_names; rewrite Hts; reflexivity).
    erewrite bind_return by reflexivity. reflexivity. }
  rewrite Hrun, Hw, Hr, Hh, app_nil_r. done.
Qed.

End Loop.

(** ** Paths *)

Section Paths.

Lemma append_nil_l (t : string) : EmptyString +:+ t = t.
Proof. reflexivity. Qed.

Lemma append_cons (c : ascii) (s t : string) : String c s +:+ t = String c (s +:+ t).
Proof. reflexivity. Qed.

Lemma append_nil_r (s : string) : s +:+ EmptyString = s.
Proof. induction s as [|c s IH]; [done|]. by rewrite append_cons, IH. Qed.

Lemma append_assoc (s t u : string) : (s +:+ t) +:+ u = s +:+ t +:+ u.
Proof. induction s as [|c s IH]; [done|]. by rewrite !append_cons, IH. Qed.

Lemma length_append (s t : string) :
  String.length (s +:+ t) = String.length s + String.length t.
Proof. induction s as [|c s IH]; [done|]. rewrite append_cons. simpl. by rewrite IH. Qed.

(** Cancellation of a common ending. *)
Lemma append_inv_r (s1 s2 t : string) : s1 +:+ t = s2 +:+ t -> s1 = s2.
Proof.
  revert s2. induction s1 as [|c s1 IH]; intros [|c2 s2] H.
  - done.
  - apply (f_equal String.length) in H.
    rewrite !length_append in H. simpl in H. lia.
  - apply (f_equal String.length) in H.
    rewrite !length_append in H. simpl in H. lia.
  - rewrite !append_cons in H. injection H as -> H. f_equal. by apply IH.
Qed.

Lemma fold_append (l : list string) (acc : string) :
  fold_left (fun path element => path +:+ element) l acc
  = acc +:+ fold_left (fun path element => path +:+ element) l EmptyString.
Proof.
  revert acc. induction l as [|x l IH]; intros acc; simpl.
  - by rewrite append_nil_r.
  - rewrite IH. rewrite (IH (EmptyString +:+ x)). by rewrite append_nil_l, append_assoc.
Qed.

Lemma path_prefix_cons (piece : string) (pieces : list string) :
  pieces <> [] ->
  path_prefix (piece :: pieces) = piece +:+ "/" +:+ path_prefix pieces.
Proof.
  intros Hne. unfold path_prefix. destruct pieces as [|p ps]; [done|].
  cbn [removelast map fold_left]. rewrite fold_append.
  by rewrite append_nil_l, append_assoc.
Qed.

Lemma split_not_nil (sep : ascii) (s : string) : split sep s <> [].
Proof.
  destruct s as [|c s]; simpl; [done|].
  destruct (decide (c = sep)); [done|]. by destruct (split sep s).
Qed.

(** A string without the separator is one piece. *)
Lemma split_one_piece (sep : ascii) (s : string) :
  contains sep s = false <-> exists piece, split sep s = [piece].
Proof.
  induction s as [|c s IH]; simpl.
  - split; [by exists EmptyString | done].
  - destruct (decide (c = sep)) as [->|Hne].
    + rewrite bool_decide_eq_true_2 by done. simpl. split; [done|].
      intros [piece H]. injection H as _ H. by destruct (split_not_nil sep s).
    + rewrite bool_decide_eq_false_2 by done. simpl. rewrite IH.
      destruct (split sep s) as [|p ps] eqn:Hsplit.
      { by destruct (split_not_nil sep s). }
      split; intros [piece H]; injection H as H1 H2; subst; eauto.
Qed.

(** The loop of the script over the pieces of the path computes the
    directory component. *)
Lemma path_prefix_dir_component (p : string) :
  path_prefix (split Chars.slash p) = dir_component p.
Proof.
  induction p as [|c p IH]; [done|].
  cbn [split dir_component contains].
  destruct (decide (c = Chars.slash)) as [->|Hne].
  - rewrite bool_decide_eq_true_2 by done. cbn [orb].
    rewrite path_prefix_cons by apply split_not_nil. by rewrite IH.
  - rewrite bool_decide_eq_false_2 by done. cbn [orb].
    destruct (contains Chars.slash p) eqn:Hs.
    + destruct (split Chars.slash p) as [|piece pieces] eqn:Hsplit.
      { by destruct (split_not_nil Chars.slash p). }
      destruct pieces as [|p2 ps].
      { assert (contains Chars.slash p = false)
          by (apply split_one_piece; eauto). congruence. }
      rewrite path_prefix_cons by done. rewrite path_prefix_cons in IH by done.
      rewrite append_cons. by rewrite IH.
    + apply split_one_piece in Hs as [piece ->]. done.
Qed.

Lemma output_path_dir_component (arg1 c : string) :
  output_path arg1 c = dir_component arg1 +:+ c +:+ ".bedgraph".
Proof. unfold output_path. by rewrite path_prefix_dir_component. Qed.

(** Two columns never share a file. *)
Lemma output_path_inj (arg1 c1 c2 : string) :
  output_path arg1 c1 = output_path arg1 c2 -> c1 = c2.
Proof.
  unfold output_path. intros H. apply String.app_inj in H.
  by apply append_inv_r in H.
Qed.

End Paths.

(** ** Which files a run writes *)

Section Files.

Context (w : world) (arg : list string).

Lemma emit_files (c : string) (T B : DataFrame) (path : string) (recs : list string) :
  (path, recs) ∈ (emit w arg c T B).1 ->
  c <> "peak_id" /\ exists arg1, arg !! 1 = Some arg1 /\ path = output_path arg1 c.
Proof.
  unfold emit. destruct (decide (c = "peak_id")) as [|Hc]; simpl.
  { no_file. }
  destruct (bedgraph_frame c T B) as [F|e]; simpl.
  2:{ no_file. }
  destruct (arg !! 1) as [arg1|]; simpl.
  2:{ no_file. }
  destruct (can_open w (output_path arg1 c)); simpl.
  2:{ no_file. }
  destruct (Csv.writerows (rows F)) as [recs' ok]. simpl.
  intros H. apply list_elem_of_singleton in H. injection H as -> _. eauto.
Qed.

Lemma emit_all_files (cols : list string) (T B : DataFrame) (path : string) (recs : list string) :
  (path, recs) ∈ (emit_all w arg cols T B).1 ->
  exists c, c ∈ cols /\ (path, recs) ∈ (emit w arg c T B).1.
Proof.
  induction cols as [|c cols IH]; simpl.
  { no_file. }
  destruct (emit w arg c T B) as [files [e|]] eqn:He; simpl.
  - intros H. exists c. rewrite He. split; [constructor | done].
  - destruct (emit_all w arg cols T B) as [more e]. simpl in *.
    intros H. apply elem_of_app in H as [H|H].
    + exists c. rewrite He. split; [constructor | done].
    + destruct (IH H) as (c' & Hin & Hc'). exists c'. split; [by constructor | done].
Qed.

(** The run, with its loads made explicit. *)
Lemma run_unfold :
  run w arg =
    match arg !! 1 with
    | None => Raise IndexError initial
    | Some arg1 =>
        match read_header w arg1 with
        | None => Raise (LoadError arg1) initial
        | Some T =>
            let s1 := {| heap := [T]; written := [] |} in
            match arg !! 2 with
            | None => Raise IndexError s1
            | Some arg2 =>
                match read_names w arg2 with
                | None => Raise (LoadError arg2) s1
                | Some ts =>
                    for_each (columns T)
                      (fun column => column_to_bedgraph w arg column 0 1)
                      {| heap := [T; bed_frame ts]; written := [] |}
                end
            end
        end
    end.
Proof.
  unfold run, main, bind, argv_get, read_csv, read_csv_names.
  destruct (arg !! 1) as [arg1|]; [|done]. simpl.
  destruct (read_header w arg1) as [T|]; [|done]. simpl.
  destruct (arg !! 2) as [arg2|]; [|done]. simpl.
  destruct (read_names w arg2) as [ts|]; done.
Qed.

(** Every file of a run is the file that the call for a column of the
    value table wrote, and then both tables were loaded. *)
Lemma run_files_emit (path : string) (recs : list string) :
  (path, recs) ∈ written (final (run w arg)) ->
  exists arg1 arg2 T ts c,
    arg !! 1 = Some arg1 /\ arg !! 2 = Some arg2 /\
    read_header w arg1 = Some T /\ read_names w arg2 = Some ts /\
    c ∈ columns T /\ (path, recs) ∈ (emit w arg c T (bed_frame ts)).1.
Proof.
  intros H.
  destruct (arg !! 1) as [arg1|] eqn:H1.
  2:{ rewrite run_unfold, H1 in H. by apply elem_of_nil in H. }
  destruct (read_header w arg1) as [T|] eqn:HT.
  2:{ rewrite run_unfold, H1, HT in H. by apply elem_of_nil in H. }
  destruct (arg !! 2) as [arg2|] eqn:H2.
  2:{ rewrite run_unfold, H1, HT, H2 in H. by apply elem_of_nil in H. }
  destruct (read_names w arg2) as [ts|] eqn:Hts.
  2:{ rewrite run_unfold, H1, HT, H2, Hts in H. by apply elem_of_nil in H. }
  destruct (run_emit_all w arg arg1 arg2 T ts H1 H2 HT Hts) as (Hw & _).
  rewrite Hw in H. rewrite list_elem_of_In, <- in_rev, <- list_elem_of_In in H.
  apply emit_all_files in H as (c & Hin & Hc).
  exists arg1, arg2, T, ts, c. done.
Qed.

Lemma run_files (path : string) (recs : list string) :
  (path, recs) ∈ written (final (run w arg)) ->
  exists arg1 arg2 T ts c,
    arg !! 1 = Some arg1 /\ arg !! 2 = Some arg2 /\
    read_header w arg1 = Some T /\ read_names w arg2 = Some ts /\
    c ∈ columns T /\ c <> "peak_id" /\ path = output_path arg1 c.
Proof.
  intros H.
  apply run_files_emit in H as (arg1 & arg2 & T & ts & c & H1 & H2 & HT & Hts & Hin & Hc).
  apply emit_files in Hc as (Hkey & arg1' & H1' & ->).
  rewrite H1 in H1'. injection H1' as <-.
  exists arg1, arg2, T, ts, c. done.
Qed.

End Files.

(** ** The key column, the output path, the tables, the loads *)


(** C7: a call for a column other than the key that returns has written
    exactly one file, and its path is the directory component of the
    first program argument followed by [<column_name>.bedgraph].  The
    second argument plays no part: the path is a function of [arg[1]] and
    of the column name alone, for every shape of [arg[1]]. *)
Theorem output_file_is_next_to_the_value_table
    (w : world) (arg : list string) (arg1 c : string) (tsv bed : ref)
    (s s' : state) (T B : DataFrame) :
  arg !! 1 = Some arg1 ->
  heap s !! tsv = Some T ->
  heap s !! bed = Some B ->
  c <> "peak_id" ->
  column_to_bedgraph w arg c tsv bed s = Return tt s' ->
  exists recs,
    written s' = (dir_component arg1 +:+ c +:+ ".bedgraph", recs) :: written s.
Proof.
  intros H1 HT HB Hc Hrun.
  destruct (column_to_bedgraph_emit w arg c tsv bed s T B HT HB) as (_ & Hw & Hr).
  rewrite Hrun in Hw, Hr. simpl in Hw, Hr.
  unfold emit in Hw, Hr. rewrite decide_False in Hw, Hr by done.
  destruct (bedgraph_frame c T B) as [F|e]; [|done].
  rewrite H1 in Hw, Hr.
  destruct (can_open w (output_path arg1 c)); [|done].
  destruct (Csv.writerows (rows F)) as [recs ok]. simpl in Hw.
  exists recs. by rewrite Hw, output_path_dir_component.
Qed.

(** C8: a call, whether it returns or raises, leaves the value table
    and the annotation table as they were: the objects behind [tsv] and
    [bed] are the same frames afterwards.  So what a call adds to the
    journal and how it ends depend on the two tables only, not on the
    state it starts from: not on the frames allocated by earlier calls,
    nor on the files they wrote. *)
Theorem tables_are_never_mutated
    (w : world) (arg : list string) (c : string) (tsv bed : ref)
    (s : state) (T B : DataFrame) :
  heap s !! tsv = Some T ->
  heap s !! bed = Some B ->
  heap (final (column_to_bedgraph w arg c tsv bed s)) !! tsv = Some T /\
  heap (final (column_to_bedgraph w arg c tsv bed s)) !! bed = Some B /\
  forall (tsv' bed' : ref) (s' : state),
    heap s' !! tsv' = Some T ->
    heap s' !! bed' = Some B ->
    raised (column_to_bedgraph w arg c tsv' bed' s')
    = raised (column_to_bedgraph w arg c tsv bed s) /\
    exists new,
      written (final (column_to_bedgraph w arg c tsv bed s)) = new ++ written s /\
      written (final (column_to_bedgraph w arg c tsv' bed' s')) = new ++ written s'.
Proof.
  intros HT HB.
  destruct (column_to_bedgraph_emit w arg c tsv bed s T B HT HB) as ((extra & Hh) & Hw & Hr).
  split; [|split].
  - rewrite Hh. by apply lookup_old.
  - rewrite Hh. by apply lookup_old.
  - intros tsv' bed' s' HT' HB'.
    destruct (column_to_bedgraph_emit w arg c tsv' bed' s' T B HT' HB') as (_ & Hw' & Hr').
    split; [congruence|]. eauto.
Qed.

(** C9: when one of the two inputs does not load, the run ends with
    the error of that load and no file has been written: both loads come
    before the first call of [column_to_bedgraph]. *)
Theorem load_failure_writes_nothing (w : world) (arg : list string) (arg1 arg2 : string) :
  arg !! 1 = Some arg1 ->
  arg !! 2 = Some arg2 ->
  read_header w arg1 = None \/ read_names w arg2 = None ->
  (raised (run w arg) = Some (LoadError arg1) \/
   raised (run w arg) = Some (LoadError arg2)) /\
  written (final (run w arg)) = [].
Proof.
  intros H1 H2 Hload. rewrite run_unfold, H1, H2.
  destruct (read_header w arg1) as [T|] eqn:HT.
  - destruct Hload as [|Hts]; [done|]. rewrite Hts. simpl. eauto.
  - simpl. eauto.
Qed.

(** ** The pairs of the join *)

Section JoinFacts.

Import Pandas.






End JoinFacts.

(** ** A call that returns *)

Section Returns.

Import Pandas.

Lemma get_loc_Some (label : string) (labels : list string) :
  label ∈ labels <-> is_Some (get_loc label labels).
Proof.
  induction labels as [|l ls IH]; simpl.
  - rewrite elem_of_nil. split; [done | by intros [? ?]].
  - rewrite elem_of_cons. destruct (decide (l = label)) as [->|Hne].
    + split; [eauto | by left].
    + rewrite IH, fmap_is_Some. split; [|tauto]. intros [?|?]; [congruence | done].
Qed.

(** The frame of a column other than the key is built exactly when the
    table has the key column and the column, the key columns of the two
    tables are compatible, and the column bears none of the annotation
    labels; otherwise the call raises [KeyError] or [ValueError]. *)
Lemma bedgraph_frame_cases (c : string) (T : DataFrame) (ts : list annotation_row) :
  c <> "peak_id" ->
  ("peak_id" ∈ columns T /\ c ∈ columns T /\ (c ∉ clashing) /\
   incompatible_keys (value_keys T) (annotation_keys ts) = false /\
   bedgraph_frame c T (bed_frame ts)
   = Ok {| columns := ["Chromosome"; "Start"; "End"; c]; rows := bedgraph_rows c T ts |})
  \/ (exists e, bedgraph_frame c T (bed_frame ts) = Error e /\
      (e = ValueError \/ exists label, e = KeyError label) /\
      ("peak_id" ∉ columns T \/ c ∉ columns T \/ c ∈ clashing \/
       incompatible_keys (value_keys T) (annotation_keys ts) = true)).
Proof.
  intros Hc.
  destruct (get_loc "peak_id" (columns T)) as [kp|] eqn:Hp.
  2:{ right. exists (KeyError "peak_id"). split; [by apply bedgraph_frame_no_key|].
      split; [eauto|]. left. rewrite get_loc_Some, Hp. by intros [? ?]. }
  destruct (get_loc c (columns T)) as [kc|] eqn:Hkc.
  2:{ right. exists (KeyError c). split; [by apply (bedgraph_frame_no_column c T _ kp)|].
      split; [eauto|]. right. left. rewrite get_loc_Some, Hkc. by intros [? ?]. }
  destruct (incompatible_keys (value_keys T) (annotation_keys ts)) eqn:Hkeys.
  { right. exists ValueError.
    split; [by apply (bedgraph_frame_incompatible c T ts kp kc)|]. tauto. }
  destruct (decide (c ∈ clashing)) as [Hcl|Hcl].
  { right. exists (KeyError c). split; [by apply (bedgraph_frame_clash c T ts kp kc)|].
    split; [eauto | tauto]. }
  left. rewrite (get_loc_Some "peak_id"), (get_loc_Some c (columns T)), Hp, Hkc.
  repeat split; eauto.
  by apply (bedgraph_frame_ok c T ts kp kc).
Qed.

Context (w : world) (arg : list string).



End Returns.

(** ** Counting and ordering the pairs *)

Section JoinOrder.

Import Pandas.

Context {A B : Type} (key_l : A -> cell) (key_r : B -> cell).







End JoinOrder.

Section Provenance.

Import Pandas.

Context (T : DataFrame) (ts : list annotation_row).



End Provenance.

(** ** The rows of an output file *)




(** ** Rows without a match *)

Section Unmatched.

Import Pandas.

Context {A B : Type} (key_l : A -> cell) (key_r : B -> cell).

(** The join without the positions of the left rows. *)
Lemma inner_join_forget (n : nat) (left : list A) (right : list (nat * B)) :
  map (fun p => (p.1.2, p.2)) (inner_join key_l key_r (enumerate_from n left) right)
  = flat_map (fun a => map (pair a) (matching key_r (key_l a) right)) left.
Proof.
  revert n. induction left as [|a left IH]; intros n; [done|].
  change (inner_join key_l key_r (enumerate_from n (a :: left)) right)
    with (map (pair (n, a)) (matching key_r (key_l a) right)
          ++ inner_join key_l key_r (enumerate_from (S n) left) right).
  rewrite map_app, IH, map_map. done.
Qed.



End Unmatched.

Section UnmatchedRows.

Import Pandas.


Lemma bedgraph_rows_forget (c : string) (T : DataFrame) (ts : list annotation_row) :
  bedgraph_rows c T ts
  = map (fun q => bedgraph_row (cell_at T c q.1) q.2.2)
      (flat_map (fun t => map (pair t) (matching peak_of (cell_at T "peak_id" t) (enumerate ts)))
         (rows T)).
Proof.
  rewrite <- (inner_join_forget (cell_at T "peak_id") peak_of 0).
  by rewrite map_map.
Qed.


Lemma existsb_text_integers (ks : list cell) :
  Forall (fun k => exists z, k = Int z) ks -> existsb is_text ks = false.
Proof. induction 1 as [|k ks [z ->] _ IH]; [done|]. simpl. exact IH. Qed.

(** Key columns of one kind pass the check of the merge. *)
Lemma one_kind_compatible (lk rk : list cell) :
  (Forall (fun k => exists s, k = Str s) lk /\ Forall (fun k => exists s, k = Str s) rk)
  \/ (Forall (fun k => exists z, k = Int z) lk /\ Forall (fun k => exists z, k = Int z) rk) ->
  incompatible_keys lk rk = false.
Proof.
  unfold incompatible_keys, object_dtype.
  destruct lk as [|l lk]; [done|]. destruct rk as [|r rk]; [done|].
  intros [[Hl Hr]|[Hl Hr]].
  - apply Forall_cons in Hl as [[sl ->] _]. apply Forall_cons in Hr as [[sr ->] _]. done.
  - by rewrite !existsb_text_integers.
Qed.



Context (w w' : world) (arg : list string).


End UnmatchedRows.


(** ** The records of the writer *)

Section Records.










End Records.


(** ** The files of a run that returns *)

Section Completed.

Context (w : world) (arg : list string) (arg1 : string).

Lemma emit_no_error (c : string) (T B : DataFrame) :
  arg !! 1 = Some arg1 ->
  (emit w arg c T B).2 = None ->
  (emit w arg c T B).1.*1 = if decide (c = "peak_id") then [] else [output_path arg1 c].
Proof.
  intros H1. unfold emit. destruct (decide (c = "peak_id")); [done|].
  destruct (bedgraph_frame c T B) as [F|e]; [|done].
  rewrite H1. destruct (can_open w (output_path arg1 c)); [|done].
  destruct (Csv.writerows (rows F)) as [recs ok]. by destruct ok.
Qed.



End Completed.


(** ** The scenarios, run *)

Example scenario_run :
  run Scenario.w Scenario.arg
  = Return tt
      {| heap := heap (final (run Scenario.w Scenario.arg));
         written :=
           [("data/stageB.bedgraph",
             [join (String Chars.tab EmptyString) ["chr1"; "100"; "200"; "20"];
              join (String Chars.tab EmptyString) ["chr1"; "300"; "400"; "40"]]);
            ("data/stageA.bedgraph",
             [join (String Chars.tab EmptyString) ["chr1"; "100"; "200"; "10"];
              join (String Chars.tab EmptyString) ["chr1"; "300"; "400"; "30"]])] |}.
Proof. reflexivity. Qed.

Example unmatched_run :
  raised (run Unmatched.w Scenario.arg) = None /\
  written (final (run Unmatched.w Scenario.arg))
  = written (final (run Scenario.w Scenario.arg)).
Proof. split; reflexivity. Qed.

Example scenario_tables_unchanged :
  heap (final (run Scenario.w Scenario.arg)) !! 0 = Some Scenario.value_table /\
  heap (final (run Scenario.w Scenario.arg)) !! 1 = Some (bed_frame Scenario.annotation_rows).
Proof. split; reflexivity. Qed.

Example duplicates_file :
  written (final (column_to_bedgraph Scenario.w Scenario.arg "stage" 0 1 Duplicates.loaded))
  = [("data/stage.bedgraph",
      [join (String Chars.tab EmptyString) ["chr1"; "100"; "200"; "1"];
       join (String Chars.tab EmptyString) ["chr1"; "700"; "800"; "1"];
       join (String Chars.tab EmptyString) ["chr2"; "5"; "6"; "2"];
       join (String Chars.tab EmptyString) ["chr1"; "100"; "200"; "3"];
       join (String Chars.tab EmptyString) ["chr1"; "700"; "800"; "3"]])].
Proof. reflexivity. Qed.

Example path_single_segment : output_path "peaks.tsv" "stageA" = "stageA.bedgraph".
Proof. reflexivity. Qed.

Example path_absolute :
  output_path "/home/lab/atac/peaks.tsv" "stageA" = "/home/lab/atac/stageA.bedgraph".
Proof. reflexivity. Qed.

Example path_root : output_path "/peaks.tsv" "stageA" = "/stageA.bedgraph".
Proof. reflexivity. Qed.

Example path_trailing_separator : output_path "data/" "stageA" = "data/stageA.bedgraph".
Proof. reflexivity. Qed.

(** A value that holds a double quote stops the writer: the file is
    left with the records before that row. *)
Example quote_stops_the_writer :
  Csv.writerows [[Str "chr1"; Int 1; Int 2; Int 3];
                 [Str "chr1"; Int 4; Int 5; Str (String Chars.quote "x")];
                 [Str "chr1"; Int 7; Int 8; Int 9]]
  = ([join (String Chars.tab EmptyString) ["chr1"; "1"; "2"; "3"]], false).
Proof. reflexivity. Qed.

(** ** Runs that stop early, and quoted fields *)


(** The run of [Clash]: the value table has the columns [peak_id] and
    [Start]; the call for [Start] raises [KeyError] and no file is
    written. *)
Example clashing_column_run :
  raised (run Clash.w Clash.arg) = Some (KeyError "Start") /\
  written (final (run Clash.w Clash.arg)) = [].
Proof. split; reflexivity. Qed.



(** ** The theorems at the scenarios *)






Lemma output_file_witness :
  exists recs,
    written (final (column_to_bedgraph Scenario.w Scenario.arg "stageB" 0 1 Scenario.loaded))
    = (dir_component "data/peaks.tsv" +:+ "stageB" +:+ ".bedgraph", recs)
      :: written Scenario.loaded.
Proof.
  apply (output_file_is_next_to_the_value_table Scenario.w Scenario.arg
           "data/peaks.tsv" "stageB" 0 1 Scenario.loaded
           (final (column_to_bedgraph Scenario.w Scenario.arg "stageB" 0 1 Scenario.loaded))
           Scenario.value_table (bed_frame Scenario.annotation_rows)).
  - reflexivity.
  - reflexivity.
  - reflexivity.
  - discriminate.
  - reflexivity.
Defined.

Lemma tables_witness :
  heap (final (column_to_bedgraph Scenario.w Scenario.arg "stageA" 0 1 Scenario.loaded)) !! 0
  = Some Scenario.value_table /\
  heap (final (column_to_bedgraph Scenario.w Scenario.arg "stageA" 0 1 Scenario.loaded)) !! 1
  = Some (bed_frame Scenario.annotation_rows) /\
  forall (tsv' bed' : ref) (s' : state),
    heap s' !! tsv' = Some Scenario.value_table ->
    heap s' !! bed' = Some (bed_frame Scenario.annotation_rows) ->
    raised (column_to_bedgraph Scenario.w Scenario.arg "stageA" tsv' bed' s')
    = raised (column_to_bedgraph Scenario.w Scenario.arg "stageA" 0 1 Scenario.loaded) /\
    exists new,
      written (final (column_to_bedgraph Scenario.w Scenario.arg "stageA" 0 1 Scenario.loaded))
      = new ++ written Scenario.loaded /\
      written (final (column_to_bedgraph Scenario.w Scenario.arg "stageA" tsv' bed' s'))
      = new ++ written s'.
Proof.
  apply (tables_are_never_mutated Scenario.w Scenario.arg "stageA" 0 1 Scenario.loaded).
  - reflexivity.
  - reflexivity.
Defined.

Lemma load_failure_witness :
  (raised (run Scenario.w ["peaks_to_bedgraph.py"; "data/peaks.tsv"; "data/missing.bed"])
   = Some (LoadError "data/peaks.tsv") \/
   raised (run Scenario.w ["peaks_to_bedgraph.py"; "data/peaks.tsv"; "data/missing.bed"])
   = Some (LoadError "data/missing.bed")) /\
  written (final (run Scenario.w ["peaks_to_bedgraph.py"; "data/peaks.tsv"; "data/missing.bed"]))
  = [].
Proof.
  apply (load_failure_writes_nothing Scenario.w
           ["peaks_to_bedgraph.py"; "data/peaks.tsv"; "data/missing.bed"]
           "data/peaks.tsv" "data/missing.bed").
  - reflexivity.
  - reflexivity.
  - right. reflexivity.
Defined.


(** ** Integers are written plainly *)

Section Integers.

Lemma digits_plain (d : Decimal.uint) : plain (NilEmpty.string_of_uint d).
Proof.
  unfold plain. induction d as [|d IH|d IH|d IH|d IH|d IH|d IH|d IH|d IH|d IH|d IH];
    [done|..]; destruct IH as (Ht & Hl & Hr & Hq); cbn [NilEmpty.string_of_uint contains];
    rewrite Ht, Hl, Hr, Hq; done.
Qed.

(** The text of an integer holds digits and a sign only: start and end
    positions never make a line quoted. *)
Lemma render_int_plain (z : Z) : plain (Csv.render (Int z)).
Proof.
  unfold Csv.render, NilZero.string_of_int, NilZero.string_of_uint.
  destruct (Z.to_int z) as [d|d].
  - destruct d; try apply digits_plain. done.
  - pose proof (digits_plain d) as (Ht & Hl & Hr & Hq).
    destruct d; try done; unfold plain; cbn [contains]; rewrite Ht, Hl, Hr, Hq; done.
Qed.

Example render_zero : Csv.render (Int 0) = "0".
Proof. reflexivity. Qed.

Example render_negative : Csv.render (Int (-15)) = "-15".
Proof. reflexivity. Qed.

End Integers.

(** ** References never dangle *)

Section References.

Context (w : world) (arg : list string).

Lemma emit_never_dangles (c : string) (T : DataFrame) (ts : list annotation_row) :
  (emit w arg c T (bed_frame ts)).2 <> Some ReferenceError.
Proof.
  unfold emit. destruct (decide (c = "peak_id")) as [|Hc]; [done|].
  destruct (bedgraph_frame_cases c T ts Hc)
    as [(_ & _ & _ & _ & ->)|(e & -> & [->|[label ->]] & _)]; [|done..].
  destruct (arg !! 1) as [arg1|]; [|done]. simpl.
  destruct (can_open w (output_path arg1 c)); [|done].
  destruct (Csv.writerows (bedgraph_rows c T ts)) as [recs ok]. by destruct ok.
Qed.

Lemma emit_all_never_dangles (cols : list string) (T : DataFrame) (ts : list annotation_row) :
  (emit_all w arg cols T (bed_frame ts)).2 <> Some ReferenceError.
Proof.
  induction cols as [|c cols IH]; [done|].
  cbn [emit_all]. pose proof (emit_never_dangles c T ts) as Hc.
  destruct (emit w arg c T (bed_frame ts)) as [files [e|]]; [done|].
  by destruct (emit_all w arg cols T (bed_frame ts)) as [more e].
Qed.

(** The script holds a reference only to an object it has made: the
    error of a dangling reference is never the end of a run. *)
Lemma run_never_dangles : raised (run w arg) <> Some ReferenceError.
Proof.
  destruct (arg !! 1) as [arg1|] eqn:H1.
  2:{ by rewrite run_unfold, H1. }
  destruct (read_header w arg1) as [T|] eqn:HT.
  2:{ by rewrite run_unfold, H1, HT. }
  destruct (arg !! 2) as [arg2|] eqn:H2.
  2:{ by rewrite run_unfold, H1, HT, H2. }
  destruct (read_names w arg2) as [ts|] eqn:Hts.
  2:{ by rewrite run_unfold, H1, HT, H2, Hts. }
  destruct (run_emit_all w arg arg1 arg2 T ts H1 H2 HT Hts) as (_ & -> & _).
  apply emit_all_never_dangles.
Qed.

(** Every file of a run lies in the directory of the first argument. *)
Lemma run_files_next_to_the_value_table (arg1 path : string) (recs : list string) :
  arg !! 1 = Some arg1 ->
  (path, recs) ∈ written (final (run w arg)) ->
  exists c, c <> "peak_id" /\ path = dir_component arg1 +:+ c +:+ ".bedgraph".
Proof.
  intros H1 Hin.
  apply run_files in Hin as (arg1' & _ & _ & _ & c & H1' & _ & _ & _ & _ & Hc & ->).
  rewrite H1 in H1'. injection H1' as <-.
  exists c. split; [done|]. apply output_path_dir_component.
Qed.

End References.

(** * Further properties of the script *)

(** ** The path, cut and put together again *)

(** The directory part that the loop of [column_to_bedgraph] builds from
    [arg[1]], followed by the last piece of [arg[1]], is [arg[1]] itself,
    and that last piece, the file name, holds no separator. *)
Theorem directory_and_file_name_make_the_path (p : string) :
  path_prefix (split Chars.slash p) +:+ List.last (split Chars.slash p) EmptyString = p /\
  contains Chars.slash (List.last (split Chars.slash p) EmptyString) = false.
Proof.
  induction p as [|c p [IHp IHc]]; [done|].
  cbn [split contains]. destruct (decide (c = Chars.slash)) as [->|Hne].
  - rewrite path_prefix_cons by apply split_not_nil.
    destruct (split Chars.slash p) as [|piece pieces] eqn:Hsplit.
    { by destruct (split_not_nil Chars.slash p). }
    change (List.last (EmptyString :: piece :: pieces) EmptyString)
      with (List.last (piece :: pieces) EmptyString).
    split; [|done]. rewrite append_nil_l, append_assoc, IHp. done.
  - destruct (split Chars.slash p) as [|piece pieces] eqn:Hsplit.
    { by destruct (split_not_nil Chars.slash p). }
    destruct pieces as [|piece' pieces].
    + change (path_prefix [piece] +:+ List.last [piece] EmptyString) with piece in IHp.
      change (List.last [piece] EmptyString) with piece in IHc.
      change (path_prefix [String c piece] +:+ List.last [String c piece] EmptyString)
        with (String c piece).
      change (List.last [String c piece] EmptyString) with (String c piece).
      subst piece. split; [done|]. cbn [contains].
      by rewrite bool_decide_eq_false_2, IHc.
    + change (List.last (String c piece :: piece' :: pieces) EmptyString)
        with (List.last (piece :: piece' :: pieces) EmptyString).
      split; [|done]. rewrite path_prefix_cons by done.
      rewrite path_prefix_cons in IHp by done.
      by rewrite <- IHp.
Qed.

(** ** Arguments and columns that are not there *)

(** Without a second program argument the run raises before any file is
    written: [IndexError] when [arg[1]] or [arg[2]] is missing, the error
    of the load when [arg[1]] is there and does not load.  The value
    table is read before the missing [arg[2]] is noticed. *)
Theorem missing_argument_stops_the_run (w : world) (arg : list string) :
  arg !! 2 = None ->
  written (final (run w arg)) = [] /\
  (raised (run w arg) = Some IndexError \/
   exists arg1, arg !! 1 = Some arg1 /\ read_header w arg1 = None /\
                raised (run w arg) = Some (LoadError arg1)).
Proof.
  intros H2. rewrite run_unfold, H2.
  destruct (arg !! 1) as [arg1|]; [|by split; [|left]].
  destruct (read_header w arg1) as [T|] eqn:HT.
  - by split; [|left].
  - split; [done|]. right. by exists arg1.
Qed.

(** A value table with columns, none of them named [peak_id]: the call
    for the first column raises [KeyError] for [peak_id], and the run
    ends there with no file written. *)
Theorem missing_key_column_stops_the_run
    (w : world) (arg : list string) (arg1 arg2 : string)
    (T : DataFrame) (ts : list annotation_row) :
  arg !! 1 = Some arg1 ->
  arg !! 2 = Some arg2 ->
  read_header w arg1 = Some T ->
  read_names w arg2 = Some ts ->
  columns T <> [] ->
  "peak_id" ∉ columns T ->
  raised (run w arg) = Some (KeyError "peak_id") /\
  written (final (run w arg)) = [].
Proof.
  intros H1 H2 HT Hts Hcols Hkey.
  destruct (run_emit_all w arg arg1 arg2 T ts H1 H2 HT Hts) as (Hw & Hr & _).
  rewrite Hw, Hr. destruct (columns T) as [|c cols] eqn:Hc; [done|].
  assert (Hne : c <> "peak_id") by (intros ->; apply Hkey; constructor).
  assert (Hloc : Pandas.get_loc "peak_id" (columns T) = None).
  { destruct (Pandas.get_loc "peak_id" (columns T)) eqn:Hp; [|done].
    exfalso. rewrite <- Hc in Hkey. apply Hkey. apply get_loc_Some. by rewrite Hp. }
  cbn [emit_all]. unfold emit. rewrite decide_False by done.
  by rewrite (bedgraph_frame_no_key c T _ Hloc).
Qed.

(** ** The writer and the quote character *)

Section Writer.

Lemma scan_field_quote (s : string) :
  contains Chars.quote s = true -> Csv.scan_field s = None.
Proof.
  induction s as [|c s IH]; [done|]. simpl.
  destruct (decide (c = Chars.quote)) as [|Hne]; [done|].
  rewrite bool_decide_eq_false_2 by done. simpl. intros H. by rewrite IH.
Qed.

Lemma scan_field_no_quote (s : string) :
  contains Chars.quote s = false -> is_Some (Csv.scan_field s).
Proof.
  induction s as [|c s IH]; [by eexists|]. simpl.
  intros [Hc Hs]%orb_false_iff. apply bool_decide_eq_false in Hc.
  rewrite decide_False by done. destruct (IH Hs) as [q ->]. by eexists.
Qed.

Lemma write_field_is_Some (n : nat) (s : string) :
  is_Some (Csv.write_field n s) <-> contains Chars.quote s = false.
Proof.
  unfold Csv.write_field. split.
  - destruct (contains Chars.quote s) eqn:Hq; [|done].
    rewrite scan_field_quote by done. by intros [? ?].
  - intros Hq. destruct (scan_field_no_quote s Hq) as [q ->].
    destruct (q || _); by eexists.
Qed.

Lemma write_fields_is_Some (n : nat) (fields : list string) :
  is_Some (Csv.write_fields n fields)
  <-> Forall (fun s => contains Chars.quote s = false) fields.
Proof.
  induction fields as [|f fs IH]; simpl.
  - split; [constructor | by eexists].
  - rewrite Forall_cons, <- IH, <- (write_field_is_Some n f).
    destruct (Csv.write_field n f) as [f'|], (Csv.write_fields n fs) as [fs'|];
      split; try (intros [? ?]); try (intros [[? ?] [? ?]]); try done; eauto.
Qed.

(** The writer takes a row exactly when none of its texts holds the
    quote character. *)
Lemma writerow_is_Some (r : row) : is_Some (Csv.writerow r) <-> quote_free r.
Proof.
  assert (Hmap : Forall (fun s => contains Chars.quote s = false) (map Csv.render r)
                 <-> quote_free r).
  { unfold quote_free. by rewrite Forall_fmap. }
  rewrite <- Hmap, <- (write_fields_is_Some (length r)). unfold Csv.writerow.
  destruct (Csv.write_fields (length r) (map Csv.render r)); split; try done; eauto.
Qed.


(** The writer stops at the first row with a quote character, with the
    records of the rows before it written. *)
Lemma writerows_cut (pre post : list row) (r : row) :
  Forall quote_free pre -> ~ quote_free r ->
  exists recs,
    Csv.writerows (pre ++ r :: post) = (recs, false) /\
    Forall2 (fun r' rec => Csv.writerow r' = Some rec) pre recs.
Proof.
  intros Hpre Hr. induction Hpre as [|r' pre Hr' Hpre IH]; simpl.
  - exists []. split; [|constructor].
    destruct (Csv.writerow r) as [rec|] eqn:Hw; [|done].
    exfalso. apply Hr, writerow_is_Some. by eexists.
  - destruct IH as (recs & -> & Hrecs).
    apply writerow_is_Some in Hr' as [rec Hrec]. rewrite Hrec.
    exists (rec :: recs). split; [done|]. by constructor.
Qed.

End Writer.

(** ** How a call ends *)

Section Outcome.

Import Pandas.

Context (w : world) (arg : list string).

(** The end of a call for a column other than the key, step by step. *)
Lemma column_to_bedgraph_outcome (c : string) (tsv bed : ref) (s : state) (T B : DataFrame) :
  heap s !! tsv = Some T ->
  heap s !! bed = Some B ->
  c <> "peak_id" ->
  match bedgraph_frame c T B with
  | Error e =>
      raised (column_to_bedgraph w arg c tsv bed s) = Some e /\
      written (final (column_to_bedgraph w arg c tsv bed s)) = written s
  | Ok F =>
      match arg !! 1 with
      | None =>
          raised (column_to_bedgraph w arg c tsv bed s) = Some IndexError /\
          written (final (column_to_bedgraph w arg c tsv bed s)) = written s
      | Some arg1 =>
          if can_open w (output_path arg1 c) then
            raised (column_to_bedgraph w arg c tsv bed s)
            = (if (Csv.writerows (rows F)).2 then None else Some CsvError) /\
            written (final (column_to_bedgraph w arg c tsv bed s))
            = (output_path arg1 c, (Csv.writerows (rows F)).1) :: written s
          else
            raised (column_to_bedgraph w arg c tsv bed s) = Some (OSError (output_path arg1 c)) /\
            written (final (column_to_bedgraph w arg c tsv bed s)) = written s
      end
  end.
Proof.
  intros HT HB Hc.
  destruct (column_to_bedgraph_emit w arg c tsv bed s T B HT HB) as (_ & Hw & Hr).
  rewrite Hw, Hr. unfold emit. rewrite decide_False by done.
  destruct (bedgraph_frame c T B) as [F|e]; [|done].
  destruct (arg !! 1) as [arg1|]; [|done].
  destruct (can_open w (output_path arg1 c)); [|done].
  by destruct (Csv.writerows (rows F)) as [recs ok].
Qed.



End Outcome.

(** A call for a column that the value table does not have raises
    [KeyError] for that column and writes nothing. *)
Theorem unknown_column_raises
    (w : world) (arg : list string) (c : string) (tsv bed : ref) (s : state)
    (T B : DataFrame) :
  heap s !! tsv = Some T ->
  heap s !! bed = Some B ->
  c <> "peak_id" ->
  "peak_id" ∈ columns T ->
  c ∉ columns T ->
  raised (column_to_bedgraph w arg c tsv bed s) = Some (KeyError c) /\
  written (final (column_to_bedgraph w arg c tsv bed s)) = written s.
Proof.
  intros HT HB Hc Hkey Hcol.
  pose proof (column_to_bedgraph_outcome w arg c tsv bed s T B HT HB Hc) as H.
  apply get_loc_Some in Hkey as [kp Hp].
  rewrite (bedgraph_frame_no_column c T B kp) in H; [done..|].
  destruct (Pandas.get_loc c (columns T)) eqn:Hloc; [|done].
  exfalso. apply Hcol, get_loc_Some. by rewrite Hloc.
Qed.

(** A value column named [Chromosome], [Start] or [End] cannot be
    written: the merge renames it on both sides, the selection of the
    four bedGraph columns misses it, and the call raises [KeyError] for
    it with nothing written. *)
Theorem column_named_like_the_annotation_raises
    (w : world) (arg : list string) (c : string) (tsv bed : ref) (s : state)
    (T : DataFrame) (ts : list annotation_row) :
  heap s !! tsv = Some T ->
  heap s !! bed = Some (bed_frame ts) ->
  "peak_id" ∈ columns T ->
  c ∈ columns T ->
  keys_of_one_kind T ts ->
  c = "Chromosome" \/ c = "Start" \/ c = "End" ->
  raised (column_to_bedgraph w arg c tsv bed s) = Some (KeyError c) /\
  written (final (column_to_bedgraph w arg c tsv bed s)) = written s.
Proof.
  intros HT HB Hkey Hcol Hkind Hname.
  assert (Hc : c <> "peak_id") by (destruct Hname as [-> | [-> | ->]]; done).
  assert (Hclash : c ∈ clashing).
  { unfold clashing. destruct Hname as [-> | [-> | ->]]; repeat constructor. }
  pose proof (column_to_bedgraph_outcome w arg c tsv bed s T _ HT HB Hc) as H.
  apply get_loc_Some in Hkey as [kp Hp]. apply get_loc_Some in Hcol as [kc Hkc].
  rewrite (bedgraph_frame_clash c T ts kp kc) in H; try done.
  by apply one_kind_compatible.
Qed.


(** When the output file cannot be opened for writing, the call raises
    [OSError] for its path and the journal of written files is what it
    was: the files of the columns before stay, nothing is added. *)
Theorem unwritable_target_raises
    (w : world) (arg : list string) (arg1 c : string) (tsv bed : ref) (s : state)
    (T : DataFrame) (ts : list annotation_row) :
  heap s !! tsv = Some T ->
  heap s !! bed = Some (bed_frame ts) ->
  arg !! 1 = Some arg1 ->
  c <> "peak_id" ->
  "peak_id" ∈ columns T ->
  c ∈ columns T ->
  c ∉ clashing ->
  keys_of_one_kind T ts ->
  can_open w (dir_component arg1 +:+ c +:+ ".bedgraph") = false ->
  raised (column_to_bedgraph w arg c tsv bed s)
  = Some (OSError (dir_component arg1 +:+ c +:+ ".bedgraph")) /\
  written (final (column_to_bedgraph w arg c tsv bed s)) = written s.
Proof.
  intros HT HB H1 Hc Hkey Hcol Hclash Hkind Hopen.
  pose proof (column_to_bedgraph_outcome w arg c tsv bed s T _ HT HB Hc) as H.
  apply get_loc_Some in Hkey as [kp Hp]. apply get_loc_Some in Hcol as [kc Hkc].
  rewrite (bedgraph_frame_ok c T ts kp kc) in H; try done; [|by apply one_kind_compatible].
  rewrite H1, output_path_dir_component, Hopen in H. done.
Qed.

(** A value with a double quote stops the writer in the middle of the
    file: the call raises [csv.Error], and the file is left with the
    records of the rows before the first row that holds a quote. *)
Theorem quote_cuts_the_file_short
    (w : world) (arg : list string) (arg1 c : string) (tsv bed : ref) (s : state)
    (T : DataFrame) (ts : list annotation_row) (pre post : list row) (r : row) :
  heap s !! tsv = Some T ->
  heap s !! bed = Some (bed_frame ts) ->
  arg !! 1 = Some arg1 ->
  c <> "peak_id" ->
  "peak_id" ∈ columns T ->
  c ∈ columns T ->
  c ∉ clashing ->
  keys_of_one_kind T ts ->
  can_open w (dir_component arg1 +:+ c +:+ ".bedgraph") = true ->
  bedgraph_rows c T ts = pre ++ r :: post ->
  Forall quote_free pre ->
  ~ quote_free r ->
  raised (column_to_bedgraph w arg c tsv bed s) = Some CsvError /\
  exists recs,
    written (final (column_to_bedgraph w arg c tsv bed s))
    = (dir_component arg1 +:+ c +:+ ".bedgraph", recs) :: written s /\
    Forall2 (fun r' rec => Csv.writerow r' = Some rec) pre recs.
Proof.
  intros HT HB H1 Hc Hkey Hcol Hclash Hkind Hopen Hrows Hpre Hr.
  pose proof (column_to_bedgraph_outcome w arg c tsv bed s T _ HT HB Hc) as H.
  apply get_loc_Some in Hkey as [kp Hp]. apply get_loc_Some in Hcol as [kc Hkc].
  rewrite (bedgraph_frame_ok c T ts kp kc) in H; try done; [|by apply one_kind_compatible].
  rewrite H1, output_path_dir_component, Hopen in H. cbn [rows] in H.
  destruct (writerows_cut pre post r Hpre Hr) as (recs & Hcut & Hrecs).
  rewrite Hrows, Hcut in H. destruct H as [Hraised Hwritten].
  split; [done|]. by exists recs.
Qed.


(** With no row in the value table, or none in the annotation, a call
    for a value column still writes its file, with no line in it. *)
Theorem empty_table_gives_an_empty_file
    (w : world) (arg : list string) (arg1 c : string) (tsv bed : ref) (s : state)
    (T : DataFrame) (ts : list annotation_row) :
  heap s !! tsv = Some T ->
  heap s !! bed = Some (bed_frame ts) ->
  arg !! 1 = Some arg1 ->
  c <> "peak_id" ->
  "peak_id" ∈ columns T ->
  c ∈ columns T ->
  c ∉ clashing ->
  can_open w (dir_component arg1 +:+ c +:+ ".bedgraph") = true ->
  rows T = [] \/ ts = [] ->
  raised (column_to_bedgraph w arg c tsv bed s) = None /\
  written (final (column_to_bedgraph w arg c tsv bed s))
  = (dir_component arg1 +:+ c +:+ ".bedgraph", []) :: written s.
Proof.
  intros HT HB H1 Hc Hkey Hcol Hclash Hopen Hempty.
  pose proof (column_to_bedgraph_outcome w arg c tsv bed s T _ HT HB Hc) as H.
  apply get_loc_Some in Hkey as [kp Hp]. apply get_loc_Some in Hcol as [kc Hkc].
  assert (Hkeys : Pandas.incompatible_keys (value_keys T) (annotation_keys ts) = false).
  { unfold Pandas.incompatible_keys, value_keys, annotation_keys.
    destruct Hempty as [-> | ->]; [done|]. by destruct (map _ (rows T)). }
  assert (Hrows : bedgraph_rows c T ts = []).
  { rewrite bedgraph_rows_forget. destruct Hempty as [-> | ->]; [done|].
    induction (rows T) as [|t rs IH]; [done|]. exact IH. }
  rewrite (bedgraph_frame_ok c T ts kp kc) in H by done.
  rewrite H1, output_path_dir_component, Hopen in H. cbn [rows] in H.
  rewrite Hrows in H. done.
Qed.

(** ** The rows of a file, without positions *)

Section PlainRows.

Lemma matching_forget {B : Type} (key_r : B -> cell) (k : cell) (n : nat) (l : list B) :
  map snd (Pandas.matching key_r k (Pandas.enumerate_from n l))
  = filter (fun b => key_r b = k) l.
Proof.
  unfold Pandas.matching. revert n. induction l as [|b l IH]; intros n; [done|].
  simpl. rewrite !filter_cons. simpl.
  destruct (decide (key_r b = k)); simpl; by rewrite IH.
Qed.

(** The rows written for a column: for each value row in turn, its
    bedGraph rows with the annotation rows of the same key, in the order
    of the annotation. *)
Lemma bedgraph_rows_plain (c : string) (T : DataFrame) (ts : list annotation_row) :
  bedgraph_rows c T ts
  = flat_map (fun t => map (bedgraph_row (cell_at T c t))
                           (filter (fun b => peak_of b = cell_at T "peak_id" t) ts))
             (rows T).
Proof.
  rewrite bedgraph_rows_forget. unfold Pandas.enumerate.
  induction (rows T) as [|t rs IH]; [done|].
  simpl. rewrite map_app, IH. f_equal.
  rewrite <- (matching_forget peak_of (cell_at T "peak_id" t) 0 ts).
  by rewrite !map_map.
Qed.

End PlainRows.

(** ** One line for each value row *)

Section OneLine.

Context (c : string) (T : DataFrame) (ts : list annotation_row).


End OneLine.


(** ** The files of any run, in the order of the columns *)

Section ColumnOrder.

Context (w : world) (arg : list string) (arg1 : string).

Lemma emit_paths (c : string) (T B : DataFrame) :
  arg !! 1 = Some arg1 ->
  (emit w arg c T B).1.*1 = [] \/
  (c <> "peak_id" /\ (emit w arg c T B).1.*1 = [output_path arg1 c]).
Proof.
  intros H1. unfold emit. destruct (decide (c = "peak_id")) as [|Hc]; [by left|].
  destruct (bedgraph_frame c T B) as [F|e]; [|by left].
  rewrite H1. destruct (can_open w (output_path arg1 c)); [|by left].
  destruct (Csv.writerows (rows F)) as [recs ok]. by right.
Qed.

Lemma emit_all_paths (cols : list string) (T B : DataFrame) :
  arg !! 1 = Some arg1 ->
  exists n,
    (emit_all w arg cols T B).1.*1
    = map (output_path arg1) (take n (filter (fun c => c <> "peak_id") cols)).
Proof.
  intros H1. induction cols as [|c cols [n IH]]; [by exists 0|].
  cbn [emit_all].
  pose proof (emit_paths c T B H1) as Hpaths.
  pose proof (emit_no_error w arg arg1 c T B H1) as Hok.
  rewrite filter_cons.
  destruct (emit w arg c T B) as [files [e|]]; simpl in *.
  - destruct Hpaths as [->|[Hc ->]]; [by exists 0|].
    exists 1. rewrite decide_True by done. done.
  - destruct (emit_all w arg cols T B) as [more e]. simpl in *.
    rewrite fmap_app, IH, Hok by done.
    destruct (decide (c = "peak_id")) as [->|Hc].
    + exists n. by rewrite decide_False by (intros H; by apply H).
    + exists (S n). by rewrite decide_True.
Qed.

End ColumnOrder.

(** In every run that loads both tables, also one that an error stops,
    the files written are, in the order written, the files of the first
    columns of the value table other than [peak_id], one file each: the
    loop follows the order of the columns and a file is written for a
    column only after the files of the columns before it.  With distinct
    column names no file is written twice. *)
Theorem files_follow_the_columns
    (w : world) (arg : list string) (arg1 arg2 : string)
    (T : DataFrame) (ts : list annotation_row) :
  arg !! 1 = Some arg1 ->
  arg !! 2 = Some arg2 ->
  read_header w arg1 = Some T ->
  read_names w arg2 = Some ts ->
  (exists n,
     rev (written (final (run w arg))).*1
     = map (fun c => dir_component arg1 +:+ c +:+ ".bedgraph")
           (take n (filter (fun c => c <> "peak_id") (columns T)))) /\
  (NoDup (columns T) -> NoDup (written (final (run w arg))).*1).
Proof.
  intros H1 H2 HT Hts.
  destruct (run_emit_all w arg arg1 arg2 T ts H1 H2 HT Hts) as (Hw & _).
  destruct (emit_all_paths w arg arg1 (columns T) T (bed_frame ts) H1) as [n Hn].
  assert (Hpaths : rev (written (final (run w arg))).*1
                   = map (output_path arg1)
                         (take n (filter (fun c => c <> "peak_id") (columns T)))).
  { rewrite Hw, <- Hn.
    transitivity (rev (rev (emit_all w arg (columns T) T (bed_frame ts)).1.*1)).
    - f_equal. exact (map_rev fst _).
    - apply rev_involutive. }
  split.
  - exists n. rewrite Hpaths. apply map_ext. intros c. apply output_path_dir_component.
  - intros Hnodup.
    apply NoDup_ListNoDup. rewrite <- (rev_involutive (written (final (run w arg))).*1).
    apply NoDup_rev, NoDup_ListNoDup. rewrite Hpaths.
    apply NoDup_fmap_2; [intros c1 c2; apply output_path_inj|].
    eapply sublist_NoDup; [|apply sublist_take]. by apply NoDup_filter.
Qed.

(** ** Annotation rows without a value row *)

Section Unused.

Context (T : DataFrame) (ts : list annotation_row).

Lemma filter_drop_unused (k : cell) :
  k ∈ value_keys T ->
  filter (fun b => peak_of b = k) (drop_unused T ts) = filter (fun b => peak_of b = k) ts.
Proof.
  intros Hk. unfold drop_unused. rewrite list_filter_filter.
  apply list_filter_iff. intros b. split; [tauto|]. intros Hb. split; [done|]. by rewrite Hb.
Qed.

Lemma bedgraph_rows_drop_unused (c : string) :
  bedgraph_rows c T (drop_unused T ts) = bedgraph_rows c T ts.
Proof.
  rewrite !bedgraph_rows_plain.
  assert (Hall : Forall (fun t => cell_at T "peak_id" t ∈ value_keys T) (rows T)).
  { apply Forall_forall. intros t Ht. unfold value_keys.
    apply list_elem_of_fmap. by exists t. }
  induction Hall as [|t rs Ht _ IH]; [done|].
  simpl. by rewrite IH, filter_drop_unused.
Qed.

Lemma keys_of_one_kind_drop_unused :
  keys_of_one_kind T ts -> keys_of_one_kind T (drop_unused T ts).
Proof.
  assert (Hsub : forall Q : cell -> Prop,
            Forall Q (annotation_keys ts) -> Forall Q (annotation_keys (drop_unused T ts))).
  { intros Q. unfold annotation_keys, drop_unused. rewrite !Forall_fmap.
    rewrite !Forall_forall. intros H b Hb. apply list_elem_of_filter in Hb as [_ Hb]. auto. }
  intros [[Hl Hr]|[Hl Hr]]; [left | right]; split; auto.
Qed.

Lemma bedgraph_frame_drop_unused (c : string) :
  keys_of_one_kind T ts ->
  c <> "peak_id" ->
  bedgraph_frame c T (bed_frame (drop_unused T ts)) = bedgraph_frame c T (bed_frame ts).
Proof.
  intros Hkind Hc.
  pose proof (one_kind_compatible _ _ Hkind) as Hkeys.
  pose proof (one_kind_compatible _ _ (keys_of_one_kind_drop_unused Hkind)) as Hkeys'.
  destruct (Pandas.get_loc "peak_id" (columns T)) as [kp|] eqn:Hp.
  2:{ by rewrite !bedgraph_frame_no_key. }
  destruct (Pandas.get_loc c (columns T)) as [kc|] eqn:Hkc.
  2:{ by rewrite !(bedgraph_frame_no_column c _ _ kp). }
  destruct (decide (c ∈ clashing)) as [Hcl|Hcl].
  { by rewrite !(bedgraph_frame_clash c T _ kp kc). }
  rewrite !(bedgraph_frame_ok c T _ kp kc) by done.
  by rewrite bedgraph_rows_drop_unused.
Qed.

Lemma emit_all_drop_unused (w w' : world) (arg : list string) (cols : list string) :
  keys_of_one_kind T ts ->
  (forall p, can_open w' p = can_open w p) ->
  emit_all w' arg cols T (bed_frame (drop_unused T ts))
  = emit_all w arg cols T (bed_frame ts).
Proof.
  intros Hkind Hopen. induction cols as [|c cols IH]; [done|].
  cbn [emit_all]. rewrite IH.
  replace (emit w' arg c T (bed_frame (drop_unused T ts)))
    with (emit w arg c T (bed_frame ts)); [done|].
  unfold emit. destruct (decide (c = "peak_id")) as [|Hc]; [done|].
  rewrite bedgraph_frame_drop_unused by done.
  destruct (bedgraph_frame c T (bed_frame ts)) as [F|e]; [|done].
  destruct (arg !! 1) as [arg1|]; [|done]. simpl. by rewrite Hopen.
Qed.

End Unused.

(** Annotation rows for peaks that the value table does not have are
    ignored: when the peak keys of the two tables are of one kind, the
    run writes the same files and ends the same way as the run with the
    annotation cut down to the peaks of the value table. *)
Theorem unused_annotation_rows_are_ignored
    (w w' : world) (arg : list string) (arg1 arg2 : string)
    (T : DataFrame) (ts : list annotation_row) :
  arg !! 1 = Some arg1 ->
  arg !! 2 = Some arg2 ->
  read_header w arg1 = Some T ->
  read_names w arg2 = Some ts ->
  read_header w' arg1 = Some T ->
  read_names w' arg2 = Some (drop_unused T ts) ->
  (forall p, can_open w' p = can_open w p) ->
  keys_of_one_kind T ts ->
  written (final (run w arg)) = written (final (run w' arg)) /\
  raised (run w arg) = raised (run w' arg).
Proof.
  intros H1 H2 HT Hts HT' Hts' Hopen Hkind.
  destruct (run_emit_all w arg arg1 arg2 T ts H1 H2 HT Hts) as (Hw & Hr & _).
  destruct (run_emit_all w' arg arg1 arg2 T _ H1 H2 HT' Hts') as (Hw' & Hr' & _).
  rewrite (emit_all_drop_unused T ts w w' arg _ Hkind Hopen) in Hw', Hr'.
  split; congruence.
Qed.

(** ** The other columns of the value table *)

Section OtherColumns.

Context (c : string) (T T' : DataFrame) (ts : list annotation_row).

Hypothesis same_columns :
  map (fun t => (cell_at T "peak_id" t, cell_at T c t)) (rows T)
  = map (fun t => (cell_at T' "peak_id" t, cell_at T' c t)) (rows T').

Lemma bedgraph_rows_of_pairs (U : DataFrame) :
  bedgraph_rows c U ts
  = flat_map (fun kv => map (bedgraph_row kv.2) (filter (fun b => peak_of b = kv.1) ts))
      (map (fun t => (cell_at U "peak_id" t, cell_at U c t)) (rows U)).
Proof.
  rewrite bedgraph_rows_plain. induction (rows U) as [|t rs IH]; [done|].
  simpl. by rewrite IH.
Qed.

Lemma same_bedgraph_rows : bedgraph_rows c T ts = bedgraph_rows c T' ts.
Proof. by rewrite !bedgraph_rows_of_pairs, same_columns. Qed.

Lemma same_value_keys : value_keys T = value_keys T'.
Proof.
  unfold value_keys.
  rewrite <- (map_map (fun t => (cell_at T "peak_id" t, cell_at T c t)) fst).
  rewrite <- (map_map (fun t => (cell_at T' "peak_id" t, cell_at T' c t)) fst).
  by rewrite same_columns.
Qed.

Lemma same_bedgraph_frame :
  c <> "peak_id" ->
  "peak_id" ∈ columns T -> c ∈ columns T ->
  "peak_id" ∈ columns T' -> c ∈ columns T' ->
  bedgraph_frame c T (bed_frame ts) = bedgraph_frame c T' (bed_frame ts).
Proof.
  intros Hc Hkey Hcol Hkey' Hcol'.
  apply get_loc_Some in Hkey as [kp Hp]. apply get_loc_Some in Hcol as [kc Hkc].
  apply get_loc_Some in Hkey' as [kp' Hp']. apply get_loc_Some in Hcol' as [kc' Hkc'].
  destruct (Pandas.incompatible_keys (value_keys T) (annotation_keys ts)) eqn:Hkeys.
  { rewrite (bedgraph_frame_incompatible c T ts kp kc) by done.
    rewrite same_value_keys in Hkeys.
    by rewrite (bedgraph_frame_incompatible c T' ts kp' kc'). }
  destruct (decide (c ∈ clashing)) as [Hcl|Hcl].
  { rewrite (bedgraph_frame_clash c T ts kp kc) by done.
    rewrite same_value_keys in Hkeys.
    by rewrite (bedgraph_frame_clash c T' ts kp' kc'). }
  rewrite (bedgraph_frame_ok c T ts kp kc) by done.
  rewrite same_value_keys in Hkeys.
  rewrite (bedgraph_frame_ok c T' ts kp' kc') by done.
  by rewrite same_bedgraph_rows.
Qed.

End OtherColumns.

(** The file of a column depends on the peak keys and on that column
    only: two value tables with the same keys and the same values in the
    column, whatever their other columns and the order of their columns,
    give calls that end the same way and write the same file. *)
Theorem file_depends_on_its_column_only
    (w : world) (arg : list string) (c : string)
    (tsv bed : ref) (s : state) (tsv' bed' : ref) (s' : state)
    (T T' : DataFrame) (ts : list annotation_row) :
  heap s !! tsv = Some T ->
  heap s !! bed = Some (bed_frame ts) ->
  heap s' !! tsv' = Some T' ->
  heap s' !! bed' = Some (bed_frame ts) ->
  c <> "peak_id" ->
  "peak_id" ∈ columns T -> c ∈ columns T ->
  "peak_id" ∈ columns T' -> c ∈ columns T' ->
  map (fun t => (cell_at T "peak_id" t, cell_at T c t)) (rows T)
  = map (fun t => (cell_at T' "peak_id" t, cell_at T' c t)) (rows T') ->
  raised (column_to_bedgraph w arg c tsv bed s)
  = raised (column_to_bedgraph w arg c tsv' bed' s') /\
  exists new,
    written (final (column_to_bedgraph w arg c tsv bed s)) = new ++ written s /\
    written (final (column_to_bedgraph w arg c tsv' bed' s')) = new ++ written s'.
Proof.
  intros HT HB HT' HB' Hc Hkey Hcol Hkey' Hcol' Hsame.
  destruct (column_to_bedgraph_emit w arg c tsv bed s T _ HT HB) as (_ & Hw & Hr).
  destruct (column_to_bedgraph_emit w arg c tsv' bed' s' T' _ HT' HB') as (_ & Hw' & Hr').
  assert (Hemit : emit w arg c T' (bed_frame ts) = emit w arg c T (bed_frame ts)).
  { unfold emit. by rewrite (same_bedgraph_frame c T T' ts Hsame). }
  rewrite Hemit in Hw', Hr'. split; [congruence|]. eauto.
Qed.

(** ** The order of the lines, in full *)

Section Lexicographic.

Context {A B : Type} (key_l : A -> cell) (key_r : B -> cell).





End Lexicographic.


(** ** The further properties at the scenarios *)

Lemma missing_argument_witness :
  written (final (run Scenario.w ["peaks_to_bedgraph.py"; "data/peaks.tsv"])) = [] /\
  (raised (run Scenario.w ["peaks_to_bedgraph.py"; "data/peaks.tsv"]) = Some IndexError \/
   exists arg1,
     ["peaks_to_bedgraph.py"; "data/peaks.tsv"] !! 1 = Some arg1 /\
     read_header Scenario.w arg1 = None /\
     raised (run Scenario.w ["peaks_to_bedgraph.py"; "data/peaks.tsv"])
     = Some (LoadError arg1)).
Proof.
  apply (missing_argument_stops_the_run Scenario.w ["peaks_to_bedgraph.py"; "data/peaks.tsv"]).
  reflexivity.
Defined.

Lemma missing_key_column_witness :
  raised (run NoKey.w Scenario.arg) = Some (KeyError "peak_id") /\
  written (final (run NoKey.w Scenario.arg)) = [].
Proof.
  apply (missing_key_column_stops_the_run NoKey.w Scenario.arg
           "data/peaks.tsv" "data/peaks.bed" NoKey.value_table Scenario.annotation_rows).
  - reflexivity.
  - reflexivity.
  - reflexivity.
  - reflexivity.
  - discriminate.
  - decided.
Defined.

Lemma unknown_column_witness :
  raised (column_to_bedgraph Scenario.w Scenario.arg "stageZ" 0 1 Scenario.loaded)
  = Some (KeyError "stageZ") /\
  written (final (column_to_bedgraph Scenario.w Scenario.arg "stageZ" 0 1 Scenario.loaded))
  = written Scenario.loaded.
Proof.
  apply (unknown_column_raises Scenario.w Scenario.arg "stageZ" 0 1 Scenario.loaded
           Scenario.value_table (bed_frame Scenario.annotation_rows)).
  - reflexivity.
  - reflexivity.
  - discriminate.
  - decided.
  - decided.
Defined.

Lemma column_named_start_witness :
  raised (column_to_bedgraph Clash.w Clash.arg "Start" 0 1 Loaded.clash)
  = Some (KeyError "Start") /\
  written (final (column_to_bedgraph Clash.w Clash.arg "Start" 0 1 Loaded.clash))
  = written Loaded.clash.
Proof.
  apply (column_named_like_the_annotation_raises Clash.w Clash.arg "Start" 0 1 Loaded.clash
           Clash.value_table Clash.annotation_rows).
  - reflexivity.
  - reflexivity.
  - decided.
  - decided.
  - left. split; texts.
  - right. left. reflexivity.
Defined.


Lemma unwritable_target_witness :
  raised (column_to_bedgraph ReadOnly.w Scenario.arg "stageA" 0 1 Scenario.loaded)
  = Some (OSError (dir_component "data/peaks.tsv" +:+ "stageA" +:+ ".bedgraph")) /\
  written (final (column_to_bedgraph ReadOnly.w Scenario.arg "stageA" 0 1 Scenario.loaded))
  = written Scenario.loaded.
Proof.
  apply (unwritable_target_raises ReadOnly.w Scenario.arg "data/peaks.tsv" "stageA" 0 1
           Scenario.loaded Scenario.value_table Scenario.annotation_rows).
  - reflexivity.
  - reflexivity.
  - reflexivity.
  - discriminate.
  - decided.
  - decided.
  - decided.
  - left. split; texts.
  - reflexivity.
Defined.

Lemma quote_in_second_row_witness :
  raised (column_to_bedgraph Scenario.w Scenario.arg "stageA" 0 1 LaterQuote.loaded)
  = Some CsvError /\
  exists recs,
    written (final (column_to_bedgraph Scenario.w Scenario.arg "stageA" 0 1 LaterQuote.loaded))
    = (dir_component "data/peaks.tsv" +:+ "stageA" +:+ ".bedgraph", recs)
      :: written LaterQuote.loaded /\
    Forall2 (fun r' rec => Csv.writerow r' = Some rec)
      [[Str "chr1"; Int 100; Int 200; Str "10"]] recs.
Proof.
  apply (quote_cuts_the_file_short Scenario.w Scenario.arg "data/peaks.tsv" "stageA" 0 1
           LaterQuote.loaded LaterQuote.value_table Scenario.annotation_rows
           [[Str "chr1"; Int 100; Int 200; Str "10"]] []
           [Str "chr1"; Int 300; Int 400; Str Quoted.value]).
  - reflexivity.
  - reflexivity.
  - reflexivity.
  - discriminate.
  - decided.
  - decided.
  - decided.
  - left. split; texts.
  - reflexivity.
  - reflexivity.
  - repeat constructor.
  - unfold quote_free. decided.
Defined.


Lemma empty_table_witness :
  raised (column_to_bedgraph Scenario.w Scenario.arg "stageA" 0 1 NoRows.loaded) = None /\
  written (final (column_to_bedgraph Scenario.w Scenario.arg "stageA" 0 1 NoRows.loaded))
  = (dir_component "data/peaks.tsv" +:+ "stageA" +:+ ".bedgraph", []) :: written NoRows.loaded.
Proof.
  apply (empty_table_gives_an_empty_file Scenario.w Scenario.arg "data/peaks.tsv" "stageA" 0 1
           NoRows.loaded NoRows.value_table Scenario.annotation_rows).
  - reflexivity.
  - reflexivity.
  - reflexivity.
  - discriminate.
  - decided.
  - decided.
  - decided.
  - reflexivity.
  - left. reflexivity.
Defined.


Lemma files_of_a_stopped_run_witness :
  (exists n,
     rev (written (final (run Quoted.w Quoted.arg))).*1
     = map (fun c => dir_component "data/peaks.tsv" +:+ c +:+ ".bedgraph")
           (take n (filter (fun c => c <> "peak_id") (columns Quoted.value_table)))) /\
  (NoDup (columns Quoted.value_table) -> NoDup (written (final (run Quoted.w Quoted.arg))).*1).
Proof.
  apply (files_follow_the_columns Quoted.w Quoted.arg "data/peaks.tsv" "data/peaks.bed"
           Quoted.value_table Quoted.annotation_rows).
  - reflexivity.
  - reflexivity.
  - reflexivity.
  - reflexivity.
Defined.

Lemma unused_annotation_rows_witness :
  written (final (run Unused.w Scenario.arg)) = written (final (run Scenario.w Scenario.arg)) /\
  raised (run Unused.w Scenario.arg) = raised (run Scenario.w Scenario.arg).
Proof.
  apply (unused_annotation_rows_are_ignored Unused.w Scenario.w Scenario.arg
           "data/peaks.tsv" "data/peaks.bed" Scenario.value_table Unused.annotation_rows).
  - reflexivity.
  - reflexivity.
  - reflexivity.
  - reflexivity.
  - reflexivity.
  - reflexivity.
  - reflexivity.
  - left. split; texts.
Defined.

Lemma other_columns_witness :
  raised (column_to_bedgraph Scenario.w Scenario.arg "stageA" 0 1 Scenario.loaded)
  = raised (column_to_bedgraph Scenario.w Scenario.arg "stageA" 1 0 Wider.loaded) /\
  exists new,
    written (final (column_to_bedgraph Scenario.w Scenario.arg "stageA" 0 1 Scenario.loaded))
    = new ++ written Scenario.loaded /\
    written (final (column_to_bedgraph Scenario.w Scenario.arg "stageA" 1 0 Wider.loaded))
    = new ++ written Wider.loaded.
Proof.
  apply (file_depends_on_its_column_only Scenario.w Scenario.arg "stageA"
           0 1 Scenario.loaded 1 0 Wider.loaded
           Scenario.value_table Wider.value_table Scenario.annotation_rows).
  - reflexivity.
  - reflexivity.
  - reflexivity.
  - reflexivity.
  - discriminate.
  - decided.
  - decided.
  - decided.
  - decided.
  - reflexivity.
Defined.

